(** * DremioModule: a shallow embedding of [dremio-module.py]

    The provisioning script is modelled function by function.  Values that
    come out of [yaml.safe_load], [json.loads] and [response.json()] are
    kept dynamically typed, as in Python; operations on them can raise.
    The services the script talks to (the file system, Vault over HTTP,
    the [yaml], [base64] and [json] codecs) are oracles gathered in a
    record; the TCP endpoint [wait_dremio] polls is an oracle of its own.
    Log calls are left out, except where evaluating their arguments can
    raise and where the waiter's trace shows them.

    The catalog client and the script itself run over the history of the
    requests sent to the catalog and the pauses taken while polling it
    (the requests to Vault are not part of it); the catalog answers by the history
    and the request, and the unbounded polling of a job is granted a
    number of rounds, after which the call counts as still polling. *)

From stdpp Require Import gmap strings list.
From Equations Require Import Equations.
From Stdlib Require Import ZArith.
From Stdlib Require Ascii String.
Import (notations) Stdlib.Strings.Ascii.

Open Scope string_scope.

(** ** Strings *)

(** The double-quote character, which the SQL text of the script embeds. *)
Definition dquote : string := String (Ascii.ascii_of_nat 34) EmptyString.

(** ** Policy query derivation: [get_policy_query] *)

Module Policy.

(** [col in transformation_cols] on a list of strings. *)
Definition py_in (col : string) (cols : list string) : bool :=
  existsb (String.eqb col) cols.

(** [[col for col in col_names if col not in transformation_cols]] *)
Fixpoint request_cols (transformation_cols col_names : list string)
  : list string :=
  match col_names with
  | [] => []
  | col :: rest =>
      if negb (py_in col transformation_cols)
      then col :: request_cols transformation_cols rest
      else request_cols transformation_cols rest
  end.

(** The accumulation loop [for col in request_cols[1:]]. *)
Definition requested_cols_string (first : string) (others : list string)
  : string :=
  fold_left (fun acc col => let add_col := ", " +:+ col in acc +:+ add_col)
            others first.

Definition get_policy_query (transformation_cols : list string)
    (sql_path : string) (col_names : list string) : string :=
  match request_cols transformation_cols col_names with
  | [] => EmptyString
  | first :: others =>
      (("select " +:+ requested_cols_string first others)
         +:+ (" from " +:+ dquote)) +:+ sql_path
  end.

(** What the specification says: the allowed columns are [allCols] without
    the names present in [protectedCols], in the order of [allCols]. *)
Definition allowed (allCols protectedCols : list string) : list string :=
  filter (λ c, c ∉ protectedCols) allCols.

(** What the specification says of the query text, over the allowed
    columns, with the keywords in the script's lower case. *)
Definition render_query (cols : list string) (path : string) : string :=
  match cols with
  | [] => EmptyString
  | _ => "select " +:+ String.concat ", " cols +:+ " from " +:+ dquote +:+ path
  end.

End Policy.

(** ** Python values and exceptions *)

Module Py.

(** The values [yaml.safe_load], [json.loads] and [response.json()] build:
    [None], booleans, integers, strings, lists, and dictionaries with
    string keys in insertion order.  (Floats, and the YAML scalars outside
    the JSON data model, are not represented.) *)
#[warnings="-register-all"]
Inductive pyval : Type :=
| PyNone
| PyBool (b : bool)
| PyInt (n : Z)
| PyStr (s : string)
| PyList (l : list pyval)
| PyDict (d : list (string * pyval)).

Inductive exn : Type :=
| ValueError (msg : string)
| KeyError (key : pyval)
| IndexError
| TypeError
| AttributeError
| UnboundLocalError (var : string)
| LibraryError (what : string).

Inductive result (A : Type) : Type :=
| Ok (a : A)
| Raise (e : exn).
Arguments Ok {A} a.
Arguments Raise {A} e.

(** Sequencing: an exception ends the computation. *)
Definition bind {A B : Type} (m : result A) (f : A → result B) : result B :=
  match m with
  | Ok a => f a
  | Raise e => Raise e
  end.

Notation "x <- m ;; k" := (bind m (λ x, k))
  (at level 100, m at next level, right associativity).

(** The computation returns, it does not raise. *)
Definition returns {A : Type} (m : result A) : Prop := ∃ a, m = Ok a.

(** [bool(v)] *)
Definition truthy (v : pyval) : bool :=
  match v with
  | PyNone => false
  | PyBool b => b
  | PyInt n => negb (n =? 0)%Z
  | PyStr EmptyString => false
  | PyStr (String _ _) => true
  | PyList [] => false
  | PyList (_ :: _) => true
  | PyDict [] => false
  | PyDict (_ :: _) => true
  end.

(** [d[k]] on the entries of a dictionary. *)
Fixpoint dict_get (k : string) (d : list (string * pyval)) : option pyval :=
  match d with
  | [] => None
  | (k', v) :: rest => if String.eqb k k' then Some v else dict_get k rest
  end.

(** [needle in hay] on strings: substring search. *)
Fixpoint str_contains (needle hay : string) : bool :=
  String.prefix needle hay
  || match hay with
     | EmptyString => false
     | String _ rest => str_contains needle rest
     end.

Definition is_str (k : string) (v : pyval) : bool :=
  match v with
  | PyStr s => String.eqb k s
  | _ => false
  end.

(** ["k" in v] *)
Definition py_contains (k : string) (v : pyval) : result bool :=
  match v with
  | PyDict d => Ok (match dict_get k d with Some _ => true | None => false end)
  | PyList l => Ok (existsb (is_str k) l)
  | PyStr s => Ok (str_contains k s)
  | PyNone | PyBool _ | PyInt _ => Raise TypeError
  end.

(** An index as Python reads it: booleans are integers. *)
Definition as_index (k : pyval) : option Z :=
  match k with
  | PyInt n => Some n
  | PyBool b => Some (if b then 1 else 0)%Z
  | _ => None
  end.

(** [l[n]] on a sequence, negative indices counting from the end. *)
Definition seq_index {A : Type} (l : list A) (n : Z) : result A :=
  let len := Z.of_nat (length l) in
  let i := if (n <? 0)%Z then (len + n)%Z else n in
  if ((i <? 0) || (len <=? i))%Z then Raise IndexError
  else match l !! Z.to_nat i with
       | Some x => Ok x
       | None => Raise IndexError
       end.

(** [v[k]] *)
Definition py_subscript (v k : pyval) : result pyval :=
  match v with
  | PyDict d =>
      match k with
      | PyStr s =>
          match dict_get s d with
          | Some x => Ok x
          | None => Raise (KeyError k)
          end
      | PyList _ | PyDict _ => Raise TypeError
      | PyNone | PyBool _ | PyInt _ => Raise (KeyError k)
      end
  | PyList l =>
      match as_index k with
      | Some n => seq_index l n
      | None => Raise TypeError
      end
  | PyStr s =>
      match as_index k with
      | Some n =>
          c <- seq_index (String.list_ascii_of_string s) n ;;
          Ok (PyStr (String c EmptyString))
      | None => Raise TypeError
      end
  | PyNone | PyBool _ | PyInt _ => Raise TypeError
  end.

(** [v["k"]] *)
Definition py_getitem (v : pyval) (k : string) : result pyval :=
  py_subscript v (PyStr k).

(** [v.get("k", default)] *)
Definition py_get (v : pyval) (k : string) (default : pyval) : result pyval :=
  match v with
  | PyDict d => Ok (from_option id default (dict_get k d))
  | _ => Raise AttributeError
  end.

(** [a + b] *)
Definition py_add (a b : pyval) : result pyval :=
  match a, b with
  | PyStr x, PyStr y => Ok (PyStr (x +:+ y))
  | PyList x, PyList y => Ok (PyList (x ++ y)%list)
  | _, _ =>
      match as_index a, as_index b with
      | Some x, Some y => Ok (PyInt (x + y))
      | _, _ => Raise TypeError
      end
  end.

(** [v.items()] *)
Definition py_items (v : pyval) : result (list (string * pyval)) :=
  match v with
  | PyDict d => Ok d
  | _ => Raise AttributeError
  end.

(** The elements [for x in v] visits. *)
Definition py_iter (v : pyval) : result (list pyval) :=
  match v with
  | PyList l => Ok l
  | PyDict d => Ok (map (λ kv, PyStr (fst kv)) d)
  | PyStr s =>
      Ok (map (λ c, PyStr (String c EmptyString)) (String.list_ascii_of_string s))
  | PyNone | PyBool _ | PyInt _ => Raise TypeError
  end.

(** [s.split(sep)] for a one-character separator. *)
Fixpoint str_split (sep : Ascii.ascii) (s : string) : list string :=
  match s with
  | EmptyString => [EmptyString]
  | String c rest =>
      if Ascii.eqb c sep then EmptyString :: str_split sep rest
      else match str_split sep rest with
           | piece :: pieces => String c piece :: pieces
           | [] => [String c EmptyString]
           end
  end.

(** [v.split("/")[1]] *)
Definition py_split_slash_1 (v : pyval) : result string :=
  match v with
  | PyStr s => seq_index (str_split "/"%char s) 1
  | _ => Raise AttributeError
  end.

End Py.

(** ** The outside world *)

Module World.
Import Py.

(** A [requests] response: its [status_code], and what [response.json()]
    gives (it raises when the body is not JSON). *)
Record response : Type := {
  status_code : Z;
  json : result pyval;
}.

(** The services the script calls, each answering as a function of the
    request. *)
Record world : Type := {
  (** [open(file_name).read()] *)
  open_read : pyval → result string;
  (** [requests.post(url, json=body)] *)
  requests_post : pyval → pyval → result response;
  (** [requests.get(url, headers=headers)] *)
  requests_get : pyval → pyval → result response;
  (** [yaml.safe_load] of the stream of [/etc/conf/conf.yaml] *)
  conf_yaml : result pyval;
  (** [base64.b64decode(v)] *)
  b64decode : pyval → result string;
  (** [bytes.decode('utf-8')] *)
  utf8_decode : string → result string;
  (** [json.loads(text)] *)
  json_loads : string → result pyval;
}.

End World.

(** ** Secret resolver *)

Module Vault.
Import Py World.

Definition missing_credentials : exn :=
  ValueError "Vault credentials are missing".

(** [get_jwt_from_file] *)
Definition get_jwt_from_file (w : world) (file_name : pyval) : result string :=
  open_read w file_name.

(** [vault_jwt_auth]; the error log of the non-200 branch evaluates
    [response.json()]. *)
Definition vault_jwt_auth (w : world)
    (jwt vault_address vault_path role datasetID : pyval) : result pyval :=
  full_auth_path <- py_add vault_address vault_path ;;
  let json_body := PyDict [("jwt", jwt); ("role", role)] in
  response <- requests_post w full_auth_path json_body ;;
  if (status_code response =? 200)%Z then json response
  else
    _ <- json response ;;
    Ok PyNone.

(** [get_raw_secret_from_vault] *)
Definition get_raw_secret_from_vault (w : world)
    (jwt secret_path vault_address vault_path role datasetID : pyval)
  : result pyval :=
  vault_auth_response <- vault_jwt_auth w jwt vault_address vault_path role datasetID ;;
  match vault_auth_response with
  | PyNone => Ok PyNone
  | _ =>
      has_auth <- py_contains "auth" vault_auth_response ;;
      has_token <-
        (if has_auth
         then auth <- py_getitem vault_auth_response "auth" ;;
              py_contains "client_token" auth
         else Ok false) ;;
      if negb has_auth || negb has_token then Ok PyNone
      else
        auth <- py_getitem vault_auth_response "auth" ;;
        client_token <- py_getitem auth "client_token" ;;
        secret_full_path <- py_add vault_address secret_path ;;
        response <-
          requests_get w secret_full_path (PyDict [("X-Vault-Token", client_token)]) ;;
        if (status_code response =? 200)%Z then
          response_json <- json response ;;
          has_data <- py_contains "data" response_json ;;
          if has_data then py_getitem response_json "data"
          else Ok PyNone
        else
          _ <- json response ;;
          Ok PyNone
  end.

(** Lines 70 to 76 of [get_credentials_from_vault]: the defaults, the token
    file and the call to [get_raw_secret_from_vault]. *)
Definition resolve_secret (w : world) (vault_credentials data_set_id : pyval)
  : result pyval :=
  jwt_file_path <-
    py_get vault_credentials "jwt_file_path"
      (PyStr "/var/run/secrets/kubernetes.io/serviceaccount/token") ;;
  jwt <- get_jwt_from_file w jwt_file_path ;;
  vault_address <- py_get vault_credentials "address" (PyStr "https://localhost:8200") ;;
  secret_path <- py_get vault_credentials "secretPath" (PyStr "/v1/secret/data/cred") ;;
  vault_auth <- py_get vault_credentials "authPath" (PyStr "/v1/auth/kubernetes/login") ;;
  role <- py_get vault_credentials "role" (PyStr "demo") ;;
  get_raw_secret_from_vault w (PyStr jwt) secret_path vault_address vault_auth
    role data_set_id.

(** Lines 77 to 90: the validation of the secret. *)
Definition check_credentials (credentials : pyval) : result (pyval * pyval) :=
  if negb (truthy credentials) then Raise missing_credentials
  else
    has_access <- py_contains "access_key" credentials ;;
    has_secret <-
      (if has_access then py_contains "secret_key" credentials else Ok false) ;;
    if has_access && has_secret then
      access_key <- py_getitem credentials "access_key" ;;
      both <-
        (if truthy access_key
         then secret_key <- py_getitem credentials "secret_key" ;;
              Ok (truthy secret_key)
         else Ok false) ;;
      if both then
        access_key <- py_getitem credentials "access_key" ;;
        secret_key <- py_getitem credentials "secret_key" ;;
        Ok (access_key, secret_key)
      else
        _ <- py_getitem credentials "access_key" ;;
        _ <- py_getitem credentials "secret_key" ;;
        Raise missing_credentials
    else Raise missing_credentials.

(** [get_credentials_from_vault] *)
Definition get_credentials_from_vault (w : world)
    (vault_credentials data_set_id : pyval) : result (pyval * pyval) :=
  credentials <- resolve_secret w vault_credentials data_set_id ;;
  check_credentials credentials.

(** The value of a field of the secret, when the secret is a mapping that
    has the field. *)
Definition field (k : string) (credentials : pyval) : option pyval :=
  match credentials with
  | PyDict d => dict_get k d
  | _ => None
  end.

(** The secret the Vault contract describes: absent, or a mapping whose
    [access_key] and [secret_key], where present, are strings. *)
Definition secret_map (credentials : pyval) : Prop :=
  credentials = PyNone
  ∨ ∃ d, credentials = PyDict d
         ∧ ∀ k v, (k = "access_key" ∨ k = "secret_key") →
                  dict_get k d = Some v → ∃ s, v = PyStr s.

(** The reply of Vault to the login request of [vault_jwt_auth]. *)
Definition auth_reply (w : world) (jwt vault_address vault_path role : pyval)
    (reply : response) : Prop :=
  ∃ url, py_add vault_address vault_path = Ok url
         ∧ requests_post w url (PyDict [("jwt", jwt); ("role", role)]) = Ok reply.

(** The reply of Vault to the read of the secret under a session token. *)
Definition secret_reply (w : world) (vault_address secret_path token : pyval)
    (reply : response) : Prop :=
  ∃ url, py_add vault_address secret_path = Ok url
         ∧ requests_get w url (PyDict [("X-Vault-Token", token)]) = Ok reply.

(** [auth.client_token] of a login response that carries it. *)
Definition client_token (auth_response : pyval) : option pyval :=
  match field "auth" auth_response with
  | Some auth => field "client_token" auth
  | None => None
  end.

(** A login response without [auth], or whose [auth] is without
    [client_token]. *)
Definition lacks_client_token (auth_response : pyval) : Prop :=
  py_contains "auth" auth_response = Ok false
  ∨ ∃ auth, py_contains "auth" auth_response = Ok true
            ∧ py_getitem auth_response "auth" = Ok auth
            ∧ py_contains "client_token" auth = Ok false.

(** A setting of the [vault_credentials] mapping, or its default. *)
Definition setting (d : list (string * pyval)) (k : string) (default : string)
  : pyval :=
  from_option id (PyStr default) (dict_get k d).

End Vault.

(** ** Config loader *)

Module Conf.
Import Py World Vault.

(** The dictionary stored in [data_dict] for a dataset. *)
Record descriptor : Type := {
  format : pyval;
  endpoint_url : pyval;
  path : pyval;
  transformation : pyval;
  transformation_cols : pyval;
  creds : pyval * pyval;
}.

(** The variables of [get_details_from_conf] that outlive an iteration: the
    module-level [data_dict] and the local [name], unbound at first. *)
Record loader_state : Type := {
  data_dict : gmap string descriptor;
  name : option string;
}.

(** The body of [for data in val], up to the dictionary it builds. *)
Definition parse_entry (w : world) (data : pyval)
  : result (string * descriptor) :=
  dataset_id <- py_getitem data "name" ;;
  name <- py_split_slash_1 dataset_id ;;
  connection <- py_getitem data "connection" ;;
  s3 <- py_getitem connection "s3" ;;
  endpoint_url <- py_getitem s3 "endpoint_url" ;;
  connection <- py_getitem data "connection" ;;
  s3 <- py_getitem connection "s3" ;;
  vault_credentials <- py_getitem s3 "vault_credentials" ;;
  creds <- get_credentials_from_vault w vault_credentials dataset_id ;;
  encoded <- py_getitem data "transformations" ;;
  transformations <- b64decode w encoded ;;
  text <- utf8_decode w transformations ;;
  transformations_json <- json_loads w text ;;
  first <- py_subscript transformations_json (PyInt 0) ;;
  transformation <- py_getitem first "name" ;;
  first <- py_subscript transformations_json (PyInt 0) ;;
  policy <- py_subscript first transformation ;;
  transformation_cols <- py_getitem policy "columns" ;;
  format <- py_getitem data "format" ;;
  path <- py_getitem data "path" ;;
  Ok (name,
      {| format := format; endpoint_url := endpoint_url; path := path;
         transformation := transformation;
         transformation_cols := transformation_cols; creds := creds |}).

(** One iteration of [for data in val]: [name] is bound and
    [data_dict[name]] assigned. *)
Definition entry_step (w : world) (st : loader_state) (data : pyval)
  : result loader_state :=
  nd <- parse_entry w data ;;
  Ok {| data_dict := <[nd.1 := nd.2]> (data_dict st); name := Some nd.1 |}.

(** [for data in val] *)
Fixpoint entries_loop (w : world) (st : loader_state) (entries : list pyval)
  : result loader_state :=
  match entries with
  | [] => Ok st
  | data :: rest =>
      st' <- entry_step w st data ;;
      entries_loop w st' rest
  end.

(** [for key, val in content.items()] *)
Fixpoint items_loop (w : world) (st : loader_state)
    (items : list (string * pyval)) : result loader_state :=
  match items with
  | [] => Ok st
  | (key, val) :: rest =>
      st' <- (if str_contains "data" key
              then entries <- py_iter val ;;
                   entries_loop w st entries
              else Ok st) ;;
      items_loop w st' rest
  end.

(** The two loops of [get_details_from_conf], from the [data_dict] the
    module holds at the call. *)
Definition load_conf (w : world) (data_dict0 : gmap string descriptor)
  : result loader_state :=
  content <- conf_yaml w ;;
  items <- py_items content ;;
  items_loop w {| data_dict := data_dict0; name := None |} items.

(** [get_details_from_conf]: the loops, then [return data_dict[name]]. *)
Definition get_details_from_conf (w : world)
    (data_dict0 : gmap string descriptor) : result descriptor :=
  st <- load_conf w data_dict0 ;;
  match name st with
  | None => Raise (UnboundLocalError "name")
  | Some n =>
      match data_dict st !! n with
      | Some d => Ok d
      | None => Raise (KeyError (PyStr n))
      end
  end.

(** The dataset entries of a configuration, in the order the loops visit
    them. *)
Definition config_entries (items : list (string * pyval)) : list pyval :=
  flat_map (λ kv, if str_contains "data" kv.1
                  then match py_iter kv.2 with
                       | Ok entries => entries
                       | Raise _ => []
                       end
                  else []) items.

End Conf.

(** ** Readiness waiter *)

Module Wait.
Import Py.

(** What [wait_dremio] does that can be observed. *)
Inductive event : Type :=
| LogInfo (msg : string)
| Connect (host : string) (port : Z)
| Sleep (seconds : Z).

(** The loop [while count < 30]; [connect n] tells whether the connect
    attempt number [n] (from 0) succeeds, any exception being a failure. *)
Equations? wait_loop (connect : nat → bool) (dremio_host : string)
    (dremio_port : Z) (count : Z) (attempt : nat) : list event
    by wf (Z.to_nat (30 - count)) lt :=
  wait_loop connect dremio_host dremio_port count attempt
    with Z_lt_dec count 30 := {
    | right _ => []
    | left _ =>
        LogInfo "wait dremio" :: Connect dremio_host dremio_port ::
        (if connect attempt then []
         else LogInfo "sleeping, waiting dremio" :: Sleep 10 ::
              wait_loop connect dremio_host dremio_port (count + 1) (S attempt))
  }.
Proof. lia. Qed.

(** [wait_dremio]: the events, and the value the call returns. *)
Definition wait_dremio (connect : nat → bool) (dremio_host : string)
    (dremio_port : Z) : list event * result pyval :=
  (wait_loop connect dremio_host dremio_port 0 0, Ok PyNone).

Definition is_connect (e : event) : bool :=
  match e with
  | Connect _ _ => true
  | _ => false
  end.

(** One failed round: the attempt and the sleep that follows it. *)
Definition failed_round (dremio_host : string) (dremio_port : Z) : list event :=
  [LogInfo "wait dremio"; Connect dremio_host dremio_port;
   LogInfo "sleeping, waiting dremio"; Sleep 10].

End Wait.

(** ** A sample deployment *)

Module Scenario.
Import Py World Conf.

Definition quoted (s : string) : string := dquote +:+ s +:+ dquote.

(** The columns, the policy and the path of a table [t] of a source
    [src]. *)
Definition example_path : string := "src" +:+ dquote +:+ "." +:+ dquote +:+ "t".
Definition example_all : list string := ["id"; "name"; "ssn"; "salary"].
Definition example_protected : list string := ["ssn"; "salary"].

(** A redaction policy: its JSON text, the base64 of the text, and the
    value [json.loads] reads from it. *)
Definition policy_text (action column : string) : string :=
  "[{" +:+ quoted "name" +:+ ": " +:+ quoted action +:+ ", " +:+ quoted action
  +:+ ": {" +:+ quoted "columns" +:+ ": [" +:+ quoted column +:+ "]}}]".

Definition policy_json (action column : string) : pyval :=
  PyList [PyDict [("name", PyStr action);
                  (action, PyDict [("columns", PyList [PyStr column])])]].

Definition redact_b64 : string :=
  "W3sibmFtZSI6ICJSZWRhY3RBY3Rpb24iLCAiUmVkYWN0QWN0aW9uIjogeyJjb2x1bW5zIjogWyJzc24iXX19XQ==".

Definition remove_b64 : string :=
  "W3sibmFtZSI6ICJSZW1vdmVBY3Rpb24iLCAiUmVtb3ZlQWN0aW9uIjogeyJjb2x1bW5zIjogWyJlbWFpbCJdfX1d".

Definition login_ok : response :=
  {| status_code := 200;
     json := Ok (PyDict [("auth", PyDict [("client_token", PyStr "s.token")])]) |}.

Definition login_denied : response :=
  {| status_code := 403;
     json := Ok (PyDict [("errors", PyList [PyStr "permission denied"])]) |}.

Definition the_secret : pyval :=
  PyDict [("access_key", PyStr "AKIA"); ("secret_key", PyStr "s3cr3t")].

Definition secret_ok : response :=
  {| status_code := 200; json := Ok (PyDict [("data", the_secret)]) |}.

Definition vault_settings : pyval :=
  PyDict [("address", PyStr "http://vault:8200"); ("role", PyStr "module")].

Definition entry (dataset_id b64 : string) : pyval :=
  PyDict [("name", PyStr dataset_id);
          ("format", PyStr "iceberg");
          ("path", PyStr "bucket/table");
          ("connection",
            PyDict [("s3", PyDict [("endpoint_url", PyStr "http://s3:9000");
                                   ("vault_credentials", vault_settings)])]);
          ("transformations", PyStr b64)].

Definition first_entry : pyval := entry "ns/first" redact_b64.
Definition second_entry : pyval := entry "ns/second" remove_b64.

Definition first_descriptor : descriptor :=
  {| format := PyStr "iceberg";
     endpoint_url := PyStr "http://s3:9000";
     path := PyStr "bucket/table";
     transformation := PyStr "RedactAction";
     transformation_cols := PyList [PyStr "ssn"];
     creds := (PyStr "AKIA", PyStr "s3cr3t") |}.

Definition two_datasets : pyval :=
  PyDict [("app", PyStr "dremio"); ("data", PyList [first_entry; second_entry])].

Definition no_datasets : pyval :=
  PyDict [("app", PyStr "dremio"); ("data", PyList [])].

Definition sample_world (login : response) (conf : pyval) : world :=
  {| open_read := λ _, Ok "eyJhbGciOiJSUzI1NiJ9";
     requests_post := λ _ _, Ok login;
     requests_get := λ _ _, Ok secret_ok;
     conf_yaml := Ok conf;
     b64decode := λ v,
       match v with
       | PyStr s =>
           if String.eqb s redact_b64 then Ok (policy_text "RedactAction" "ssn")
           else if String.eqb s remove_b64
                then Ok (policy_text "RemoveAction" "email")
                else Raise (LibraryError "binascii.Error")
       | _ => Raise TypeError
       end;
     utf8_decode := λ bytes, Ok bytes;
     json_loads := λ text,
       if String.eqb text (policy_text "RedactAction" "ssn")
       then Ok (policy_json "RedactAction" "ssn")
       else if String.eqb text (policy_text "RemoveAction" "email")
            then Ok (policy_json "RemoveAction" "email")
            else Raise (LibraryError "json.JSONDecodeError") |}.

End Scenario.

(** ** More of Python: splitting, equality, membership *)

Module PyMore.
Import Py.

(** [s.split(sep)] for a separator of any length; [skip] counts the
    characters of a separator just matched that are still to be passed. *)
Fixpoint split_from (sep : string) (skip : nat) (s : string) : list string :=
  match s with
  | EmptyString => [EmptyString]
  | String c rest =>
      match skip with
      | S k => split_from sep k rest
      | O =>
          if String.prefix sep s
          then EmptyString :: split_from sep (String.length sep - 1) rest
          else match split_from sep 0 rest with
               | piece :: pieces => String c piece :: pieces
               | [] => [String c EmptyString]
               end
      end
  end.

(** [v.split(sep)], [sep] not empty. *)
Definition py_split (sep : string) (v : pyval) : result (list string) :=
  match v with
  | PyStr s => Ok (split_from sep 0 s)
  | _ => Raise AttributeError
  end.

(** [a == b] *)
Fixpoint py_eq (a b : pyval) : bool :=
  match a, b with
  | PyNone, PyNone => true
  | PyStr x, PyStr y => String.eqb x y
  | PyList x, PyList y =>
      (fix all2 (x y : list pyval) : bool :=
         match x, y with
         | [], [] => true
         | u :: x', v :: y' => py_eq u v && all2 x' y'
         | _, _ => false
         end) x y
  | PyDict x, PyDict y =>
      (length x =? length y)%nat
      && (fix all (x : list (string * pyval)) : bool :=
            match x with
            | [] => true
            | (k, u) :: x' =>
                match dict_get k y with
                | Some v => py_eq u v
                | None => false
                end && all x'
            end) x
  | (PyBool _ | PyInt _), (PyBool _ | PyInt _) =>
      match as_index a, as_index b with
      | Some m, Some n => (m =? n)%Z
      | _, _ => false
      end
  | _, _ => false
  end.

(** [x in container] *)
Definition py_in (x container : pyval) : result bool :=
  match container with
  | PyList l => Ok (existsb (py_eq x) l)
  | PyDict d =>
      match x with
      | PyStr k => Ok (match dict_get k d with Some _ => true | None => false end)
      | PyList _ | PyDict _ => Raise TypeError
      | PyNone | PyBool _ | PyInt _ => Ok false
      end
  | PyStr s =>
      match x with
      | PyStr k => Ok (str_contains k s)
      | _ => Raise TypeError
      end
  | PyNone | PyBool _ | PyInt _ => Raise TypeError
  end.

(** [a += b]: a list is extended by the elements of any iterable. *)
Definition py_iadd (a b : pyval) : result pyval :=
  match a with
  | PyList x => items <- py_iter b ;; Ok (PyList (x ++ items)%list)
  | _ => py_add a b
  end.

(** [xs[1:]] on a list. *)
Definition from_1 {A : Type} (xs : list A) : list A := drop 1 xs.

(** The string a value is, when it is one. *)
Definition as_string (v : pyval) : option string :=
  match v with
  | PyStr s => Some s
  | _ => None
  end.

Definition is_string (v : pyval) : bool :=
  match v with
  | PyStr _ => true
  | _ => false
  end.

End PyMore.

(** ** The policy query on untyped arguments *)

Module PolicyDyn.
Import Py PyMore.

(** [[col for col in col_names if col not in transformation_cols]] *)
Fixpoint request_cols_dyn (transformation_cols : pyval) (col_names : list pyval)
  : result (list pyval) :=
  match col_names with
  | [] => Ok []
  | col :: rest =>
      protected <- py_in col transformation_cols ;;
      kept <- request_cols_dyn transformation_cols rest ;;
      Ok (if negb protected then col :: kept else kept)
  end.

(** [for col in request_cols[1:]: ...] *)
Fixpoint accumulate (requested_cols_string : pyval) (cols : list pyval)
  : result pyval :=
  match cols with
  | [] => Ok requested_cols_string
  | col :: rest =>
      add_col <- py_add (PyStr ", ") col ;;
      requested_cols_string <- py_iadd requested_cols_string add_col ;;
      accumulate requested_cols_string rest
  end.

(** [get_policy_query] as the script calls it: the policy columns are
    whatever the configuration decoded to, the column names whatever the
    catalog answered. *)
Definition get_policy_query_dyn (transformation_cols : pyval)
    (sql_path : string) (col_names : list pyval) : result pyval :=
  request_cols <- request_cols_dyn transformation_cols col_names ;;
  match request_cols with
  | [] => Ok (PyStr EmptyString)
  | first :: others =>
      requested_cols_string <- accumulate first others ;;
      s1 <- py_add (PyStr "select ") requested_cols_string ;;
      s2 <- py_add s1 (PyStr (" from " +:+ dquote)) ;;
      py_add s2 (PyStr sql_path)
  end.

(** What the accumulation gives when it gives no text: [TypeError], or a
    value that is not a string. *)
Definition no_text (r : result pyval) : Prop :=
  r = Raise TypeError ∨ ∃ v, r = Ok v ∧ is_string v = false.

End PolicyDyn.

(** ** The catalog service *)

Module Catalog.
Import Py PyMore.

(** A call of [requests]: method, URL, [headers=] and [data=]. *)
Record request : Type := {
  method : string;
  url : string;
  headers : pyval;
  data : string;
}.

(** What the script does to the catalog, in order: the requests it sends
    to it and the pauses of [sleep] in the polling of a job.  The requests
    to Vault and the sleeps of [wait_dremio] are not events of this
    kind. *)
Inductive event : Type :=
| Sent (r : request)
| Slept (seconds : Z).

(** The catalog answers a request with the text of its response, or the
    call raises; the answer may depend on all that happened before.  With
    it come the [json] codec and [str] on values other than strings. *)
Record service : Type := {
  respond : list event → request → result string;
  dumps : pyval → string;
  loads : string → result pyval;
  str_of : pyval → string;
}.

(** How a call ends: it returns, it raises, or it is still polling when
    the steps granted to it are used up. *)
Inductive outcome (A : Type) : Type :=
| Returned (a : A)
| Raised (e : exn)
| Polling.
Arguments Returned {A} a.
Arguments Raised {A} e.
Arguments Polling {A}.

(** A computation over the history of events. *)
Definition io (A : Type) : Type := list event → outcome A * list event.

Definition ret {A : Type} (a : A) : io A := λ h, (Returned a, h).

Definition io_bind {A B : Type} (m : io A) (f : A → io B) : io B :=
  λ h, match m h with
       | (Returned a, h') => f a h'
       | (Raised e, h') => (Raised e, h')
       | (Polling, h') => (Polling, h')
       end.

Notation "x <~ m ;; k" := (io_bind m (λ x, k))
  (at level 100, m at next level, right associativity).

Definition lift {A : Type} (m : result A) : io A :=
  λ h, match m with
       | Ok a => (Returned a, h)
       | Raise e => (Raised e, h)
       end.

Definition send (s : service) (r : request) : io string :=
  λ h, match respond s h r with
       | Ok text => (Returned text, h ++ [Sent r])
       | Raise e => (Raised e, h ++ [Sent r])
       end%list.

Definition sleep (seconds : Z) : io unit :=
  λ h, (Returned tt, (h ++ [Slept seconds])%list).

Definition raise {A : Type} (e : exn) : io A := λ h, (Raised e, h).

Definition still_polling {A : Type} : io A := λ h, (Polling, h).

(** A value substituted in [str.format]. *)
Definition py_format (s : service) (v : pyval) : string :=
  match v with
  | PyStr x => x
  | _ => str_of s v
  end.

(** [str + v], which only a string [v] allows. *)
Definition str_plus (a : string) (v : pyval) : result string :=
  r <- py_add (PyStr a) v ;;
  match r with
  | PyStr x => Ok x
  | _ => Raise TypeError
  end.

(** [api_get] *)
Definition api_get (s : service) (server endpoint : string)
    (headers body : pyval) : io pyval :=
  text <~ send s {| method := "GET";
                    url := server +:+ "/api/v3/" +:+ endpoint;
                    headers := headers;
                    data := dumps s body |} ;;
  lift (loads s text).

(** [api_post] *)
Definition api_post (s : service) (server endpoint : string)
    (body headers : pyval) : io pyval :=
  text <~ send s {| method := "POST";
                    url := server +:+ "/api/v3/" +:+ endpoint;
                    headers := headers;
                    data := dumps s body |} ;;
  match text with
  | String _ _ => lift (loads s text)
  | EmptyString => ret PyNone
  end.

(** The request of [login]. *)
Definition login_request (s : service) (server username password : string)
    (headers : pyval) : request :=
  let loginData :=
    PyDict [("userName", PyStr username); ("password", PyStr password)] in
  {| method := "POST";
     url := server +:+ "/apiv2/login";
     headers := headers;
     data := dumps s loginData |}.

(** [login] *)
Definition login (s : service) (server username password : string)
    (headers : pyval) : io pyval :=
  text <~ send s (login_request s server username password headers) ;;
  data <~ lift (loads s text) ;;
  token <~ lift (py_getitem data "token") ;;
  ret (PyDict [("Content-Type", PyStr "application/json");
               ("Authorization", PyStr ("_dremio" +:+ py_format s token))]).

(** The request of [register_admin_user]. *)
Definition bootstrap_request (s : service) (dremio_server : string) : request :=
  let data_user :=
    PyDict [("userName", PyStr "adminUser");
            ("firstName", PyStr "user");
            ("lastName", PyStr "admin");
            ("email", PyStr "test@test.com");
            ("createdAt", PyInt 1526186430755);
            ("password", PyStr "adminPwd1")] in
  let headers :=
    PyDict [("Content-Type", PyStr "application/json");
            ("Authorization", PyStr "_dremionull")] in
  {| method := "PUT";
     url := dremio_server +:+ "/apiv2/bootstrap/firstuser";
     headers := headers;
     data := dumps s data_user |}.

(** [register_admin_user] *)
Definition register_admin_user (s : service) (dremio_server : string)
  : io pyval :=
  _ <~ send s (bootstrap_request s dremio_server) ;;
  ret PyNone.

(** The payload [data_s3] of [create_s3_source]. *)
Definition data_s3 (creds : pyval * pyval) (endpoint : pyval)
    (source_name : string) : pyval :=
  PyDict
    [("entityType", PyStr "source");
     ("name", PyStr source_name);
     ("type", PyStr "S3");
     ("config",
       PyDict
         [("accessKey", creds.1);
          ("accessSecret", creds.2);
          ("secure", PyStr "false");
          ("allowCreateDrop", PyStr "true");
          ("rootPath", PyStr "/");
          ("credentialType", PyStr "ACCESS_KEY");
          ("enableAsync", PyStr "true");
          ("compatibilityMode", PyStr "true");
          ("isCachingEnabled", PyStr "true");
          ("maxCacheSpacePct", PyInt 100);
          ("requesterPays", PyStr "false");
          ("enableFileStatusCheck", PyStr "true");
          ("propertyList",
            PyList
              [PyDict [("name", PyStr "fs.s3a.path.style.access");
                       ("value", PyStr "true")];
               PyDict [("name", PyStr "fs.s3a.endpoint");
                       ("value", endpoint)]])])].

(** [create_s3_source] *)
Definition create_s3_source (s : service) (dremio_server : string)
    (auth_headers : pyval) (creds : pyval * pyval) (endpoint : pyval)
    (source_name : string) : io pyval :=
  _ <~ api_post s dremio_server "catalog" (data_s3 creds endpoint source_name)
         auth_headers ;;
  ret PyNone.

(** The payload [dataPromote] of [promote_folder]. *)
Definition dataPromote (source_name path : string) (path_list : list string)
  : pyval :=
  PyDict [("entityType", PyStr "dataset");
          ("id", PyStr ((("dremio:/" +:+ source_name) +:+ "/") +:+ path));
          ("path", PyList (map PyStr path_list));
          ("type", PyStr "PHYSICAL_DATASET");
          ("format", PyDict [("type", PyStr "Iceberg")])].

(** The [promote_url] of [promote_folder]. *)
Definition promote_url (source_name : string) (path_list : list string)
  : string :=
  (source_name +:+ "%2F") +:+ String.concat "%2F" (from_1 path_list).

(** [promote_folder]; [path.split('/')] asks for a string. *)
Definition promote_folder (s : service) (dremio_server : string)
    (auth_headers path : pyval) (source_name : string) : io (list string) :=
  match path with
  | PyStr p =>
      let path_list := source_name :: split_from "/" 0 p in
      _ <~ api_post s dremio_server
             ("catalog/dremio%3A%2F" +:+ promote_url source_name path_list)
             (dataPromote source_name p path_list) auth_headers ;;
      ret path_list
  | _ => raise AttributeError
  end.

(** The statement [dataSQL] of [get_table_columns]. *)
Definition dataSQL (sql_path : string) : pyval :=
  PyDict [("sql", PyStr (("SELECT * FROM " +:+ dquote +:+ sql_path) +:+ "LIMIT 0"))].

(** The loop [while response.get("jobState") != "COMPLETED"], for at most
    [steps] iterations. *)
Fixpoint wait_for_job (steps : nat) (s : service) (dremio_server : string)
    (auth_headers : pyval) (job : string) (body response : pyval) : io pyval :=
  state <~ lift (py_get response "jobState" PyNone) ;;
  if is_str "COMPLETED" state then ret response
  else match steps with
       | O => still_polling
       | S steps' =>
           response' <~ api_get s dremio_server job auth_headers body ;;
           _ <~ sleep 10 ;;
           wait_for_job steps' s dremio_server auth_headers job body response'
       end.

(** [[elem.get("name") for elem in schema]] *)
Fixpoint names_of (schema : list pyval) : result (list pyval) :=
  match schema with
  | [] => Ok []
  | elem :: rest =>
      name <- py_get elem "name" PyNone ;;
      names <- names_of rest ;;
      Ok (name :: names)
  end.

(** [get_table_columns], its polling loop granted [steps] iterations.
    The endpoint ["job/"+job_id] is the same string at each use. *)
Definition get_table_columns (steps : nat) (s : service)
    (dremio_server : string) (auth_headers : pyval) (sql_path : string)
  : io (list pyval) :=
  let body := dataSQL sql_path in
  response <~ api_post s dremio_server "sql" body auth_headers ;;
  job_id <~ lift (py_get response "id" PyNone) ;;
  job <~ lift (str_plus "job/" job_id) ;;
  response <~ api_get s dremio_server job auth_headers body ;;
  _ <~ wait_for_job steps s dremio_server auth_headers job body response ;;
  response <~ api_get s dremio_server (job +:+ "/results") auth_headers body ;;
  schema <~ lift (py_get response "schema" PyNone) ;;
  elems <~ lift (py_iter schema) ;;
  lift (names_of elems).

(** The payload [dataVDS] of [create_VDS]. *)
Definition dataVDS (path_list : list string) (sql_vds : pyval)
    (newVDSName : string) : pyval :=
  PyDict [("entityType", PyStr "dataset");
          ("path", PyList [PyStr "Space-api"; PyStr newVDSName]);
          ("type", PyStr "VIRTUAL_DATASET");
          ("sql", sql_vds);
          ("sqlContext", PyList (map PyStr path_list))].

(** [create_VDS] *)
Definition create_VDS (s : service) (dremio_server : string)
    (auth_headers : pyval) (path_list : list string) (sql_vds : pyval)
    (newVDSName : string) : io pyval :=
  _ <~ api_post s dremio_server "catalog" (dataVDS path_list sql_vds newVDSName)
         auth_headers ;;
  ret PyNone.

(** [create_new_user] *)
Definition create_new_user (s : service) (dremio_server : string)
    (auth_headers : pyval) : io pyval :=
  let dataNewUser :=
    PyDict [("name", PyStr "newUser");
            ("firstName", PyStr "first");
            ("password", PyStr "testpassword123")] in
  _ <~ api_post s dremio_server "user" dataNewUser auth_headers ;;
  ret PyNone.

(** The request [api_get] sends. *)
Definition get_request (s : service) (server endpoint : string)
    (headers body : pyval) : request :=
  {| method := "GET"; url := server +:+ "/api/v3/" +:+ endpoint;
     headers := headers; data := dumps s body |}.

(** The request [api_post] sends. *)
Definition post_request (s : service) (server endpoint : string)
    (body headers : pyval) : request :=
  {| method := "POST"; url := server +:+ "/api/v3/" +:+ endpoint;
     headers := headers; data := dumps s body |}.

(** One round of the polling loop: the status request and the pause. *)
Definition poll_round (r : request) : list event := [Sent r; Slept 10].

(** A job status that is not yet [COMPLETED]. *)
Definition unfinished (s : service) (text : string) : Prop :=
  ∃ response state,
    loads s text = Ok response
    ∧ py_get response "jobState" PyNone = Ok state
    ∧ is_str "COMPLETED" state = false.

(** A job status that is [COMPLETED]. *)
Definition finished (s : service) (text : string) (response : pyval) : Prop :=
  loads s text = Ok response
  ∧ py_get response "jobState" PyNone = Ok (PyStr "COMPLETED").

(** An event that is a pause, or a request under the headers [auth]. *)
Definition carries (auth : pyval) (e : event) : Prop :=
  match e with
  | Sent r => headers r = auth
  | Slept _ => True
  end.

(** A computation that only adds events, all of them satisfying [P]. *)
Definition extends_with {A : Type} (P : event → Prop) (m : io A) : Prop :=
  ∀ h, ∃ ext, (m h).2 = (h ++ ext)%list ∧ Forall P ext.

(** The requests among the events. *)
Definition requests_of (h : list event) : list request :=
  omap (λ e, match e with Sent r => Some r | Slept _ => None end) h.

(** The seconds slept, in total. *)
Definition slept (h : list event) : Z :=
  foldr (λ e acc, match e with Slept n => (n + acc)%Z | Sent _ => acc end) 0%Z h.

End Catalog.

(** ** The script *)

Module Main.
Import Py PyMore World Conf PolicyDyn Catalog.

Definition username : string := "adminUser".
Definition password : string := "adminPwd1".
Definition json_headers : pyval :=
  PyDict [("content-type", PyStr "application/json")].
Definition dremio_server : string :=
  "http://dremio-client.fybrik-blueprints.svc.cluster.local:9047".
Definition dremio_host : string :=
  "dremio-client.fybrik-blueprints.svc.cluster.local".
Definition dremio_port : Z := 9047.
Definition source_name : string := "sample-iceberg".
Definition newVDSName : string := "sample-iceberg-vds".

(** [if "://" in endpoint: endpoint = endpoint.split("://")[1]] *)
Definition strip_scheme (endpoint : pyval) : result pyval :=
  has_scheme <- py_contains "://" endpoint ;;
  if has_scheme then
    pieces <- py_split "://" endpoint ;;
    piece <- seq_index pieces 1 ;;
    Ok (PyStr piece)
  else Ok endpoint.

(** The separator of the quoted segments of an SQL path. *)
Definition quote_dot_quote : string := dquote +:+ "." +:+ dquote.

(** The [sql_path] of the script: the source name, the separator, the
    segments after the first joined by the separator, and a closing double
    quote. *)
Definition sql_path_of (source_name : string) (path_list : list string)
  : string :=
  ((source_name +:+ quote_dot_quote)
     +:+ String.concat quote_dot_quote (from_1 path_list)) +:+ dquote.

Definition payloadSpace : pyval :=
  PyDict [("entityType", PyStr "space"); ("name", PyStr "Space-api")].

(** The script from the loading of the configuration on, under the
    headers [login] returned; [data_dict] is empty when the script starts.
    The calls to Vault that [get_details_from_conf] makes are answered by
    the oracles of the world and add no event to the history, which holds
    the traffic with the catalog only. *)
Definition provision_as (w : world) (s : service) (steps : nat)
    (auth_headers : pyval) : io pyval :=
  parse_conf <~ lift (get_details_from_conf w ∅) ;;
  let transformation_cols := transformation_cols parse_conf in
  let creds := creds parse_conf in
  let path := path parse_conf in
  endpoint <~ lift (strip_scheme (endpoint_url parse_conf)) ;;
  _ <~ create_s3_source s dremio_server auth_headers creds endpoint source_name ;;
  _ <~ api_get s dremio_server
         ((("catalog/by-path/" +:+ source_name) +:+ "/") +:+ py_format s path)
         auth_headers PyNone ;;
  path_list <~ promote_folder s dremio_server auth_headers path source_name ;;
  let sql_path := sql_path_of source_name path_list in
  col_names <~ get_table_columns steps s dremio_server auth_headers sql_path ;;
  sql_vds <~ lift (get_policy_query_dyn transformation_cols sql_path col_names) ;;
  _ <~ api_post s dremio_server "catalog" payloadSpace auth_headers ;;
  _ <~ create_VDS s dremio_server auth_headers path_list sql_vds newVDSName ;;
  _ <~ create_new_user s dremio_server auth_headers ;;
  ret PyNone.

(** The script after [wait_dremio], the polling of the job granted [steps]
    iterations. *)
Definition provision (w : world) (s : service) (steps : nat) : io pyval :=
  _ <~ register_admin_user s dremio_server ;;
  auth_headers <~ login s dremio_server username password json_headers ;;
  provision_as w s steps auth_headers.

(** The script: the events of the readiness wait, then the outcome and
    the events of the provisioning. *)
Definition main (connect : nat → bool) (w : world) (s : service) (steps : nat)
  : list Wait.event * (outcome pyval * list event) :=
  ((Wait.wait_dremio connect dremio_host dremio_port).1, provision w s steps []).

End Main.

(** ** Measures on the trace of the readiness waiter *)

Module WaitMore.
Import Wait.

(** The seconds [wait_dremio] slept. *)
Definition total_sleep (trace : list event) : Z :=
  foldr (λ e acc, match e with Sleep n => (n + acc)%Z | _ => acc end) 0%Z trace.

(** The connect attempts it made. *)
Definition attempts (trace : list event) : nat :=
  length (List.filter is_connect trace).

End WaitMore.

(** ** A sample catalog *)

Module CatalogScenario.
Import Py Catalog.

(** A catalog whose job completes once [job_seconds] have been slept, or
    never when no duration is given. *)
Definition sample_service (job_seconds : option Z) : service :=
  {| respond := λ h r,
       if String.eqb (method r) "PUT" then Ok "{}"
       else if str_contains "/apiv2/login" (url r) then Ok "login"
       else if str_contains "/results" (url r) then Ok "results"
       else if str_contains "/job/" (url r)
            then Ok (match job_seconds with
                     | Some seconds =>
                         if (slept h <? seconds)%Z then "running" else "done"
                     | None => "running"
                     end)
            else if str_contains "/api/v3/sql" (url r) then Ok "submitted"
                 else if String.eqb (method r) "GET" then Ok "{}"
                      else Ok EmptyString;
     dumps := λ _, "json";
     loads := λ text,
       if String.eqb text "login" then Ok (PyDict [("token", PyStr "tok")])
       else if String.eqb text "submitted" then Ok (PyDict [("id", PyStr "j1")])
       else if String.eqb text "running"
            then Ok (PyDict [("jobState", PyStr "RUNNING")])
       else if String.eqb text "done"
            then Ok (PyDict [("jobState", PyStr "COMPLETED")])
       else if String.eqb text "results"
            then Ok (PyDict [("schema",
                              PyList [PyDict [("name", PyStr "id")];
                                      PyDict [("name", PyStr "email")]])])
       else if String.eqb text "{}" then Ok (PyDict [])
       else Raise (LibraryError "json.JSONDecodeError");
     str_of := λ _, "?" |}.

(** A catalog that answers every request with an empty body. *)
Definition silent_service : service :=
  {| respond := λ _ _, Ok EmptyString;
     dumps := dumps (sample_service None);
     loads := loads (sample_service None);
     str_of := str_of (sample_service None) |}.

Definition sample_auth : pyval :=
  PyDict [("Content-Type", PyStr "application/json");
          ("Authorization", PyStr "_dremiotok")].

(** The status request of job [j1]. *)
Definition status_request : request :=
  {| method := "GET";
     url := "http://dremio:9047/api/v3/job/j1";
     headers := sample_auth;
     data := "json" |}.

End CatalogScenario.

(** ** The world with another configuration file *)

Module ConfMore.
Import Py World.

(** The world [w] in which [/etc/conf/conf.yaml] loads as [content]. *)
Definition with_conf (w : world) (content : result pyval) : world :=
  {| open_read := open_read w;
     requests_post := requests_post w;
     requests_get := requests_get w;
     conf_yaml := content;
     b64decode := b64decode w;
     utf8_decode := utf8_decode w;
     json_loads := json_loads w |}.

(** The items of a configuration whose key contains [data]. *)
Definition data_items (items : list (string * pyval)) : list (string * pyval) :=
  List.filter (λ kv, str_contains "data" kv.1) items.

End ConfMore.

(** ** Vault replies outside the happy path *)

Module VaultScenario.
Import Py World.

(** A refusal whose body is not JSON (an HTML page of a proxy, say):
    [response.json()] raises. *)
Definition login_refused_html : response :=
  {| status_code := 403;
     json := Raise (LibraryError "json.JSONDecodeError") |}.

(** A 200 reply whose [auth] field is [null]. *)
Definition login_null_auth : response :=
  {| status_code := 200; json := Ok (PyDict [("auth", PyNone)]) |}.

End VaultScenario.

(** ** Theorems on the policy query *)

Module PolicyFacts.
Import Policy Scenario.

Example query_keeps_unprotected_duplicates :
  get_policy_query ["ssn"] "t" ["id"; "ssn"; "id"; "name"]
  = "select id, id, name from " +:+ dquote +:+ "t".
Proof. reflexivity. Qed.

Lemma py_in_spec col cols : py_in col cols = true ↔ col ∈ cols.
Proof.
  unfold py_in. rewrite existsb_exists, list_elem_of_In. split.
  - intros (x & Hx & Heq). apply String.eqb_eq in Heq. by subst.
  - intros H. exists col. split; [done | apply String.eqb_refl].
Qed.

Lemma request_cols_allowed protectedCols allCols :
  request_cols protectedCols allCols = allowed allCols protectedCols.
Proof.
  unfold allowed. induction allCols as [|c cs IH]; [done|].
  simpl. rewrite IH. destruct (py_in c protectedCols) eqn:E; simpl.
  - apply py_in_spec in E. by rewrite filter_cons_False by (intros ?; done).
  - rewrite filter_cons_True; [done|].
    intros Hin. apply py_in_spec in Hin. congruence.
Qed.

Lemma append_cons (x : Ascii.ascii) (a b : string) :
  String x a +:+ b = String x (a +:+ b).
Proof. reflexivity. Qed.

Lemma append_assoc (a b c : string) : (a +:+ b) +:+ c = a +:+ (b +:+ c).
Proof.
  induction a as [|x a IH]; [done|].
  by rewrite !append_cons, IH.
Qed.

Lemma requested_cols_string_concat first others :
  requested_cols_string first others = String.concat ", " (first :: others).
Proof.
  unfold requested_cols_string.
  revert first. induction others as [|c cs IH]; intros first; simpl.
  - done.
  - rewrite IH. simpl. destruct cs; [done|]. by rewrite !append_assoc.
Qed.

Lemma get_policy_query_render protectedCols path allCols :
  get_policy_query protectedCols path allCols
  = render_query (request_cols protectedCols allCols) path.
Proof.
  unfold get_policy_query, render_query.
  destruct (request_cols protectedCols allCols) as [|c cs]; [done|].
  rewrite requested_cols_string_concat.
  by rewrite !append_assoc.
Qed.

(** C1: the columns of the query built by [get_policy_query] are [allCols]
    without the names present in [protectedCols], in the order of [allCols]
    (unprotected duplicates kept): the list the code computes is that
    filter, and the query text is the comma-joined rendering of it. *)
Theorem C1_policy_columns_are_filtered (allCols protectedCols : list string)
    (path : string) :
  request_cols protectedCols allCols = filter (λ c, c ∉ protectedCols) allCols
  ∧ get_policy_query protectedCols path allCols
    = render_query (filter (λ c, c ∉ protectedCols) allCols) path.
Proof.
  split.
  - apply request_cols_allowed.
  - rewrite get_policy_query_render. by rewrite request_cols_allowed.
Qed.

(** C3, as stated: on the example the query would start with the
    keyword SELECT and continue with FROM, in upper case.  The script
    writes the keywords in lower case, so the text differs. *)
Lemma C3_upper_case_keywords_refuted :
  get_policy_query example_protected example_path example_all
  ≠ "SELECT id, name FROM " +:+ dquote +:+ example_path.
Proof. intros H. vm_compute in H. discriminate H. Qed.

(** C3, amended: on the example the query is [select id, name from]
    followed by one double quote and the path as given, keywords in lower
    case and no quote added after the path. *)
Theorem C3_example_query :
  get_policy_query example_protected example_path example_all
  = "select id, name from " +:+ dquote +:+ example_path.
Proof. reflexivity. Qed.

(** C5: when every name of [allCols] is present in [protectedCols] (so in
    particular when the two lists hold the same names), [get_policy_query]
    returns the empty string. *)
Theorem C5_all_protected_gives_empty (allCols protectedCols : list string)
    (path : string) :
  (∀ c, c ∈ allCols → c ∈ protectedCols) →
  get_policy_query protectedCols path allCols = EmptyString.
Proof.
  intros Hsub. unfold get_policy_query.
  rewrite request_cols_allowed. unfold allowed.
  replace (filter (λ c, c ∉ protectedCols) allCols) with (@nil string); [done|].
  symmetry. induction allCols as [|c cs IH]; [done|].
  rewrite filter_cons_False.
  - apply IH. intros x Hx. apply Hsub. by right.
  - intros Hc. apply Hc, Hsub. by left.
Qed.

Lemma C5_all_protected_gives_empty_witness :
  (∀ c, c ∈ ["id"; "ssn"; "id"] → c ∈ ["ssn"; "id"; "salary"])
  ∧ get_policy_query ["ssn"; "id"; "salary"] example_path ["id"; "ssn"; "id"]
    = EmptyString.
Proof.
  assert (H : ∀ c : string, c ∈ ["id"; "ssn"; "id"] → c ∈ ["ssn"; "id"; "salary"])
    by (intros c; rewrite !elem_of_cons, !elem_of_nil; tauto).
  split; [exact H|].
  exact (C5_all_protected_gives_empty _ _ example_path H).
Defined.

Lemma request_cols_ext (p1 p2 cols : list string) :
  (∀ c, c ∈ p1 ↔ c ∈ p2) → request_cols p1 cols = request_cols p2 cols.
Proof.
  intros Hsame. rewrite !request_cols_allowed. unfold allowed.
  apply list_filter_iff. intros c. by rewrite Hsame.
Qed.

(** C10: [get_policy_query] depends on [protectedCols] only through
    membership: two lists of protected names with the same members, in any
    order and with any repetitions, give the same SQL text. *)
Theorem C10_protected_only_by_membership (p1 p2 allCols : list string)
    (path : string) :
  (∀ c, c ∈ p1 ↔ c ∈ p2) →
  get_policy_query p1 path allCols = get_policy_query p2 path allCols.
Proof.
  intros Hsame. unfold get_policy_query.
  by rewrite (request_cols_ext p1 p2 allCols Hsame).
Qed.

Lemma C10_protected_only_by_membership_witness :
  (∀ c, c ∈ ["ssn"; "salary"] ↔ c ∈ ["salary"; "ssn"; "salary"])
  ∧ get_policy_query ["ssn"; "salary"] example_path example_all
    = get_policy_query ["salary"; "ssn"; "salary"] example_path example_all.
Proof.
  assert (H : ∀ c : string,
             c ∈ ["ssn"; "salary"] ↔ c ∈ ["salary"; "ssn"; "salary"])
    by (intros c; rewrite !elem_of_cons, !elem_of_nil; tauto).
  split; [exact H|].
  exact (C10_protected_only_by_membership _ _ example_all example_path H).
Defined.

End PolicyFacts.


(** ** Theorems on the readiness waiter *)

Module WaitFacts.
Import Py Wait.

Example wait_dremio_second_attempt_succeeds :
  wait_dremio (λ n, bool_decide (n = 1)) "dremio" 9047
  = (failed_round "dremio" 9047
       ++ [LogInfo "wait dremio"; Connect "dremio" 9047], Ok PyNone)%list.
Proof. reflexivity. Qed.

Lemma wait_loop_all_fail (connect : nat → bool) (host : string) (port : Z) :
  (∀ n, connect n = false) →
  ∀ (k : nat) (count : Z) (attempt : nat),
    Z.to_nat (30 - count) = k →
    wait_loop connect host port count attempt
    = concat (replicate k (failed_round host port)).
Proof.
  intros Hfail k. induction k as [|k IH]; intros count attempt Hk;
    simp wait_loop; destruct (Z_lt_dec count 30) as [Hlt|Hge]; simpl; try lia.
  - done.
  - rewrite Hfail. by rewrite (IH (count + 1)%Z (S attempt)) by lia.
Qed.

(** C7: when every connect attempt fails, [wait_dremio] makes exactly 30
    attempts, each followed by a sleep of 10, and then returns normally
    (the value [None], no exception). *)
Theorem C7_wait_dremio_gives_up_after_30 (connect : nat → bool)
    (host : string) (port : Z) :
  (∀ n, connect n = false) →
  wait_dremio connect host port
  = (concat (replicate 30 (failed_round host port)), Ok PyNone)
  ∧ length (filter (λ e, is_connect e = true) (wait_dremio connect host port).1)
    = 30.
Proof.
  intros Hfail. unfold wait_dremio.
  rewrite (wait_loop_all_fail connect host port Hfail 30 0 0) by done.
  split; reflexivity.
Qed.

Lemma C7_wait_dremio_gives_up_after_30_witness :
  (∀ n : nat, (λ _ : nat, false) n = false)
  ∧ wait_dremio (λ _, false) "dremio" 9047
    = (concat (replicate 30 (failed_round "dremio" 9047)), Ok PyNone).
Proof.
  split; [done|].
  exact (proj1 (C7_wait_dremio_gives_up_after_30 (λ _, false) "dremio" 9047
                  (λ _, eq_refl))).
Defined.

End WaitFacts.


(** ** Sequencing of computations that can raise *)

Module ResultFacts.
Import Py.

Lemma bind_ok {A B : Type} (m : result A) (a : A) (f : A → result B) :
  m = Ok a → bind m f = f a.
Proof. by intros ->. Qed.

(** A successful sequence has a successful first step. *)
Lemma bind_Ok_inv {A B : Type} (m : result A) (f : A → result B) (b : B) :
  bind m f = Ok b → ∃ a, m = Ok a ∧ f a = Ok b.
Proof. destruct m as [a|e]; [by exists a | done]. Qed.

Ltac bind_inv H :=
  let x := fresh "x" in
  let Hx := fresh "Hx" in
  apply bind_Ok_inv in H; destruct H as (x & Hx & H).

End ResultFacts.


(** ** Theorems on the secret resolver *)

Module VaultFacts.
Import Py World Vault ResultFacts.

Example secret_with_empty_access_key :
  check_credentials
    (PyDict [("access_key", PyStr EmptyString); ("secret_key", PyStr "s3cr3t")])
  = Raise missing_credentials.
Proof. reflexivity. Qed.

Example secret_in_order :
  check_credentials
    (PyDict [("secret_key", PyStr "s3cr3t"); ("access_key", PyStr "AKIA")])
  = Ok (PyStr "AKIA", PyStr "s3cr3t").
Proof. reflexivity. Qed.

(** [check_credentials] on a mapping, read off the two fields. *)
Lemma check_credentials_dict (d : list (string * pyval)) :
  check_credentials (PyDict d)
  = match d with
    | [] => Raise missing_credentials
    | _ :: _ =>
        match dict_get "access_key" d, dict_get "secret_key" d with
        | Some a, Some s =>
            if truthy a && truthy s then Ok (a, s)
            else Raise missing_credentials
        | _, _ => Raise missing_credentials
        end
    end.
Proof.
  destruct d as [|kv d']; [done|].
  unfold check_credentials, py_contains, py_getitem, py_subscript.
  set (d := kv :: d'). simpl truthy. simpl negb. cbv iota.
  destruct (dict_get "access_key" d) as [a|] eqn:Ha;
    destruct (dict_get "secret_key" d) as [s|] eqn:Hs; simpl; try done.
  by destruct (truthy a), (truthy s).
Qed.

(** C2: [get_credentials_from_vault] raises the missing-credentials error
    exactly when the resolved secret is absent or empty, lacks [access_key],
    lacks [secret_key], or has an empty string for either; it succeeds only
    when both are present and non-empty, and then returns them as the pair
    (access_key, secret_key). *)
Theorem C2_credentials_validation (w : world)
    (vault_credentials data_set_id credentials : pyval) :
  resolve_secret w vault_credentials data_set_id = Ok credentials →
  secret_map credentials →
  (get_credentials_from_vault w vault_credentials data_set_id
     = Raise missing_credentials
   ↔ credentials = PyNone ∨ credentials = PyDict []
     ∨ field "access_key" credentials = None
     ∨ field "secret_key" credentials = None
     ∨ field "access_key" credentials = Some (PyStr EmptyString)
     ∨ field "secret_key" credentials = Some (PyStr EmptyString))
  ∧ (∀ r, get_credentials_from_vault w vault_credentials data_set_id = Ok r
          ↔ ∃ a s, field "access_key" credentials = Some (PyStr a)
                   ∧ field "secret_key" credentials = Some (PyStr s)
                   ∧ a ≠ EmptyString ∧ s ≠ EmptyString
                   ∧ r = (PyStr a, PyStr s)).
Proof.
  intros Hres Hmap. unfold get_credentials_from_vault.
  rewrite (bind_ok _ _ _ Hres).
  destruct Hmap as [-> | (d & -> & Hstr)].
  { split; [split; [auto | done]|].
    intros r; split; [done|]. by intros (a & s & Hf & _). }
  rewrite check_credentials_dict. destruct d as [|kv d'].
  { split; [split; [auto | done]|].
    intros r; split; [done|]. by intros (a & s & Hf & _). }
  set (d := kv :: d') in *. unfold field.
  destruct (dict_get "access_key" d) as [a|] eqn:Ha.
  2:{ split; [split; [auto 6 | done]|].
      intros r; split; [done|]. by intros (a & s & Hf & _). }
  destruct (dict_get "secret_key" d) as [s|] eqn:Hs.
  2:{ split; [split; [auto 6 | done]|].
      intros r; split; [done|]. by intros (a' & s' & _ & Hf & _). }
  destruct (Hstr "access_key" a (or_introl eq_refl) Ha) as [sa ->].
  destruct (Hstr "secret_key" s (or_intror eq_refl) Hs) as [ss ->].
  destruct sa as [|ca sa]; [|destruct ss as [|cs ss]]; simpl.
  - split; [split; [auto 8 | done]|].
    intros r; split; [done|]. intros (a' & s' & [= <-] & _ & Hne & _). done.
  - split; [split; [auto 8 | done]|].
    intros r; split; [done|]. intros (a' & s' & _ & [= <-] & _ & Hne & _). done.
  - split.
    + split; [done|]. intros H. unfold d in H.
      destruct H as [H|[H|[H|[H|[H|H]]]]]; done.
    + intros r; split.
      * intros [= <-]. by eexists _, _.
      * by intros (a' & s' & [= <-] & [= <-] & _ & _ & ->).
Qed.

Lemma C2_credentials_validation_witness :
  get_credentials_from_vault
    (Scenario.sample_world Scenario.login_ok Scenario.two_datasets)
    Scenario.vault_settings (PyStr "ns/first")
  = Ok (PyStr "AKIA", PyStr "s3cr3t").
Proof.
  pose (w := Scenario.sample_world Scenario.login_ok Scenario.two_datasets).
  assert (Hres : resolve_secret w Scenario.vault_settings (PyStr "ns/first")
                 = Ok Scenario.the_secret) by reflexivity.
  assert (Hmap : secret_map Scenario.the_secret).
  { right. eexists. split; [reflexivity|].
    intros k v [-> | ->] [= <-]; by eexists. }
  apply (proj2 (C2_credentials_validation w _ _ _ Hres Hmap)).
  by exists "AKIA", "s3cr3t".
Defined.

(** With a session token in hand, the result is decided by the reply to
    the read of the secret. *)
Lemma fetch_with_token (w : world)
    (jwt secret_path vault_address vault_path role datasetID : pyval)
    (r token : pyval) (reply : response) :
  vault_jwt_auth w jwt vault_address vault_path role datasetID = Ok r →
  client_token r = Some token →
  secret_reply w vault_address secret_path token reply →
  get_raw_secret_from_vault w jwt secret_path vault_address vault_path role
    datasetID
  = (if (status_code reply =? 200)%Z then
       response_json <- json reply ;;
       has_data <- py_contains "data" response_json ;;
       if has_data then py_getitem response_json "data" else Ok PyNone
     else _ <- json reply ;; Ok PyNone)
  ∧ r ≠ PyNone.
Proof.
  intros Hauth Htoken (url & Hadd & Hget).
  unfold get_raw_secret_from_vault. rewrite (bind_ok _ _ _ Hauth).
  unfold client_token, field in Htoken.
  destruct r as [| | | | |d]; try done.
  destruct (dict_get "auth" d) as [a|] eqn:Ha; [|done].
  destruct a as [| | | | |da]; try done.
  unfold py_contains, py_getitem, py_subscript.
  rewrite Ha. simpl. rewrite Htoken. simpl.
  rewrite (bind_ok _ _ _ Hadd), (bind_ok _ _ _ Hget). done.
Qed.

Lemma auth_none_on_non_200 (w : world)
    (jwt vault_address vault_path role datasetID : pyval)
    (reply : response) (body : pyval) :
  auth_reply w jwt vault_address vault_path role reply →
  status_code reply ≠ 200%Z → json reply = Ok body →
  vault_jwt_auth w jwt vault_address vault_path role datasetID = Ok PyNone.
Proof.
  intros (url & Hadd & Hpost) Hstatus Hbody. unfold vault_jwt_auth.
  rewrite (bind_ok _ _ _ Hadd), (bind_ok _ _ _ Hpost).
  destruct (Z.eqb_spec (status_code reply) 200); [done|].
  by rewrite (bind_ok _ _ _ Hbody).
Qed.

Lemma fetch_none_on_auth_none (w : world)
    (jwt secret_path vault_address vault_path role datasetID : pyval) :
  vault_jwt_auth w jwt vault_address vault_path role datasetID = Ok PyNone →
  get_raw_secret_from_vault w jwt secret_path vault_address vault_path role
    datasetID = Ok PyNone.
Proof.
  intros Hauth. unfold get_raw_secret_from_vault.
  by rewrite (bind_ok _ _ _ Hauth).
Qed.

Lemma missing_on_secret_none (w : world) (vault_credentials datasetID : pyval) :
  resolve_secret w vault_credentials datasetID = Ok PyNone →
  get_credentials_from_vault w vault_credentials datasetID
  = Raise missing_credentials.
Proof.
  intros Hres. unfold get_credentials_from_vault.
  by rewrite (bind_ok _ _ _ Hres).
Qed.

(** The cases of [get_raw_secret_from_vault] when Vault replies with JSON
    bodies: [None] when the authentication returns [None] (as on a non-200
    login reply), and when the login response has no [auth] or an [auth]
    that is a container without [client_token]; on a 200 reply to the read
    of the secret that is a mapping with a [data] field, that field, and
    otherwise [None].  A login refused with a JSON body therefore makes
    [get_credentials_from_vault] raise the missing-credentials error. *)
Theorem fetch_secret_cases_on_json_replies (w : world)
    (jwt secret_path vault_address vault_path role datasetID : pyval) :
  let auth := vault_jwt_auth w jwt vault_address vault_path role datasetID in
  let fetch :=
    get_raw_secret_from_vault w jwt secret_path vault_address vault_path role
      datasetID in
  (∀ reply body,
      auth_reply w jwt vault_address vault_path role reply →
      status_code reply ≠ 200%Z → json reply = Ok body →
      auth = Ok PyNone)
  ∧ (auth = Ok PyNone → fetch = Ok PyNone)
  ∧ (∀ r, auth = Ok r → lacks_client_token r → fetch = Ok PyNone)
  ∧ (∀ r token reply body,
        auth = Ok r → client_token r = Some token →
        secret_reply w vault_address secret_path token reply →
        json reply = Ok body →
        (∀ data, status_code reply = 200%Z → field "data" body = Some data →
                 fetch = Ok data)
        ∧ (status_code reply = 200%Z → py_contains "data" body = Ok false →
           fetch = Ok PyNone)
        ∧ (status_code reply ≠ 200%Z → fetch = Ok PyNone))
  ∧ (∀ vault_credentials,
        resolve_secret w vault_credentials datasetID = Ok PyNone →
        get_credentials_from_vault w vault_credentials datasetID
        = Raise missing_credentials)
  ∧ (∀ settings token_file reply body,
        open_read w
          (setting settings "jwt_file_path"
             "/var/run/secrets/kubernetes.io/serviceaccount/token")
        = Ok token_file →
        auth_reply w (PyStr token_file)
          (setting settings "address" "https://localhost:8200")
          (setting settings "authPath" "/v1/auth/kubernetes/login")
          (setting settings "role" "demo") reply →
        status_code reply ≠ 200%Z → json reply = Ok body →
        get_credentials_from_vault w (PyDict settings) datasetID
        = Raise missing_credentials).
Proof.
  intros auth fetch. subst auth fetch.
  split; [|split; [|split; [|split; [|split]]]].
  - intros reply body. apply auth_none_on_non_200.
  - apply fetch_none_on_auth_none.
  - intros r Hauth Hlacks. unfold get_raw_secret_from_vault.
    rewrite (bind_ok _ _ _ Hauth).
    destruct Hlacks as [Hno | (a & Hyes & Hget & Hno)].
    + rewrite (bind_ok _ _ _ Hno). by destruct r.
    + rewrite (bind_ok _ _ _ Hyes). cbv iota.
      rewrite (bind_ok _ _ _ Hget), (bind_ok _ _ _ Hno). by destruct r.
  - intros r token reply body Hauth Htoken Hreply Hbody.
    destruct (fetch_with_token w jwt secret_path vault_address vault_path
                role datasetID r token reply Hauth Htoken Hreply)
      as [Hfetch _].
    rewrite Hfetch, Hbody. clear Hfetch. split; [|split].
    + intros data -> Hdata. simpl.
      destruct body as [| | | | |d]; try done. simpl in Hdata.
      unfold py_contains, py_getitem, py_subscript. by rewrite Hdata.
    + intros -> Hno. simpl. by rewrite Hno.
    + intros Hstatus. by destruct (Z.eqb_spec (status_code reply) 200).
  - intros vault_credentials. apply missing_on_secret_none.
  - intros settings token_file reply body Hfile Hreply Hstatus Hbody.
    apply missing_on_secret_none.
    unfold resolve_secret, get_jwt_from_file, py_get. simpl.
    fold (setting settings "jwt_file_path"
            "/var/run/secrets/kubernetes.io/serviceaccount/token").
    rewrite Hfile. simpl.
    apply fetch_none_on_auth_none.
    by apply (auth_none_on_non_200 _ _ _ _ _ _ reply body).
Qed.

Lemma fetch_secret_cases_on_json_replies_witness :
  get_raw_secret_from_vault
    (Scenario.sample_world Scenario.login_denied Scenario.two_datasets)
    (PyStr "eyJhbGciOiJSUzI1NiJ9") (PyStr "/v1/secret/data/cred")
    (PyStr "http://vault:8200") (PyStr "/v1/auth/kubernetes/login")
    (PyStr "module") (PyStr "ns/first")
  = Ok PyNone
  ∧ get_credentials_from_vault
      (Scenario.sample_world Scenario.login_denied Scenario.two_datasets)
      Scenario.vault_settings (PyStr "ns/first")
    = Raise missing_credentials.
Proof.
  pose (w := Scenario.sample_world Scenario.login_denied Scenario.two_datasets).
  destruct (fetch_secret_cases_on_json_replies w
              (PyStr "eyJhbGciOiJSUzI1NiJ9") (PyStr "/v1/secret/data/cred")
              (PyStr "http://vault:8200") (PyStr "/v1/auth/kubernetes/login")
              (PyStr "module") (PyStr "ns/first"))
    as (Hdenied & Hnone & _ & _ & _ & Hraise).
  split.
  - apply Hnone.
    apply (Hdenied Scenario.login_denied
             (PyDict [("errors", PyList [PyStr "permission denied"])])).
    + eexists. split; reflexivity.
    + done.
    + reflexivity.
  - apply (Hraise _ "eyJhbGciOiJSUzI1NiJ9" Scenario.login_denied
             (PyDict [("errors", PyList [PyStr "permission denied"])])).
    + reflexivity.
    + eexists. split; reflexivity.
    + done.
    + reflexivity.
Defined.

(** C6, where the code departs from it: a login refused with a body that
    is not JSON does not make [get_raw_secret_from_vault] return [None],
    nor [get_credentials_from_vault] raise the missing-credentials error:
    the error log of [vault_jwt_auth] evaluates [response.json()], and what
    that raises ends both calls.  Likewise a 200 login reply whose [auth] is
    [null] ends [get_raw_secret_from_vault] with [TypeError], raised by the
    test for [client_token], instead of [None]. *)
Theorem C6_error_path_raises :
  let refused :=
    Scenario.sample_world VaultScenario.login_refused_html Scenario.two_datasets in
  let null_auth :=
    Scenario.sample_world VaultScenario.login_null_auth Scenario.two_datasets in
  vault_jwt_auth refused (PyStr "eyJhbGciOiJSUzI1NiJ9")
    (PyStr "http://vault:8200") (PyStr "/v1/auth/kubernetes/login")
    (PyStr "module") (PyStr "ns/first")
  = Raise (LibraryError "json.JSONDecodeError")
  ∧ get_raw_secret_from_vault refused (PyStr "eyJhbGciOiJSUzI1NiJ9")
      (PyStr "/v1/secret/data/cred") (PyStr "http://vault:8200")
      (PyStr "/v1/auth/kubernetes/login") (PyStr "module") (PyStr "ns/first")
    = Raise (LibraryError "json.JSONDecodeError")
  ∧ get_credentials_from_vault refused Scenario.vault_settings (PyStr "ns/first")
    = Raise (LibraryError "json.JSONDecodeError")
  ∧ get_credentials_from_vault refused Scenario.vault_settings (PyStr "ns/first")
    ≠ Raise missing_credentials
  ∧ get_raw_secret_from_vault null_auth (PyStr "eyJhbGciOiJSUzI1NiJ9")
      (PyStr "/v1/secret/data/cred") (PyStr "http://vault:8200")
      (PyStr "/v1/auth/kubernetes/login") (PyStr "module") (PyStr "ns/first")
    = Raise TypeError.
Proof. repeat split; try reflexivity. intros H. vm_compute in H. discriminate H. Qed.

(** Whatever the world, a login reply that is not 200 and whose body is
    not JSON makes [vault_jwt_auth] raise what [response.json()] raises. *)
Lemma auth_raises_on_non_json_refusal (w : world)
    (jwt vault_address vault_path role datasetID : pyval)
    (reply : response) (e : exn) :
  auth_reply w jwt vault_address vault_path role reply →
  status_code reply ≠ 200%Z → json reply = Raise e →
  vault_jwt_auth w jwt vault_address vault_path role datasetID = Raise e.
Proof.
  intros (url & Hadd & Hpost) Hstatus Hbody. unfold vault_jwt_auth.
  rewrite (bind_ok _ _ _ Hadd), (bind_ok _ _ _ Hpost).
  destruct (Z.eqb_spec (status_code reply) 200); [done|].
  by rewrite Hbody.
Qed.

End VaultFacts.


(** ** Theorems on the config loader *)

Module ConfFacts.
Import Py World Vault Conf ResultFacts.

Example local_name_of_dataset :
  py_split_slash_1 (PyStr "ns/second/x") = Ok "second"
  ∧ py_split_slash_1 (PyStr "second") = Raise IndexError.
Proof. split; reflexivity. Qed.

Example sample_loader_returns_second :
  get_details_from_conf
    (Scenario.sample_world Scenario.login_ok Scenario.two_datasets) ∅
  = Ok {| format := PyStr "iceberg";
          endpoint_url := PyStr "http://s3:9000";
          path := PyStr "bucket/table";
          transformation := PyStr "RemoveAction";
          transformation_cols := PyList [PyStr "email"];
          creds := (PyStr "AKIA", PyStr "s3cr3t") |}.
Proof. vm_compute. reflexivity. Qed.

Lemma entries_loop_app (w : world) (st : loader_state) (es1 es2 : list pyval) :
  entries_loop w st (es1 ++ es2)%list
  = (st' <- entries_loop w st es1 ;; entries_loop w st' es2).
Proof.
  revert st. induction es1 as [|e es1 IH]; intros st; simpl; [done|].
  destruct (entry_step w st e) as [st1|err]; simpl; [apply IH | done].
Qed.

(** The loops over the items visit [config_entries] in order. *)
Lemma items_loop_entries (w : world) (items : list (string * pyval))
    (st st' : loader_state) :
  items_loop w st items = Ok st' →
  entries_loop w st (config_entries items) = Ok st'.
Proof.
  revert st. induction items as [|[key val] items IH]; intros st H; [done|].
  simpl in H. cbn [config_entries flat_map fst snd].
  rewrite entries_loop_app.
  bind_inv H. apply IH in H.
  destruct (str_contains "data" key).
  - bind_inv Hx. rewrite Hx0. by rewrite (bind_ok _ _ _ Hx).
  - injection Hx as ->. done.
Qed.

Lemma entries_items_loop (w : world) (items : list (string * pyval))
    (st : loader_state) :
  (∀ k v, (k, v) ∈ items → str_contains "data" k = true → returns (py_iter v)) →
  items_loop w st items = entries_loop w st (config_entries items).
Proof.
  revert st. induction items as [|[key val] items IH]; intros st Hiter; [done|].
  simpl. cbn [config_entries flat_map fst snd]. rewrite entries_loop_app.
  assert (Hrest : ∀ k v, (k, v) ∈ items → str_contains "data" k = true →
                         returns (py_iter v)).
  { intros k v Hin. apply Hiter. by right. }
  destruct (str_contains "data" key) eqn:Hkey.
  - destruct (Hiter key val (ltac:(left)) Hkey) as [es ->]. simpl.
    destruct (entries_loop w st es); simpl; [by apply IH | done].
  - simpl. by apply IH.
Qed.

(** After the last entry, [name] is its name and [data_dict[name]] its
    descriptor. *)
Lemma entries_loop_last (w : world) (st st' : loader_state)
    (earlier : list pyval) (last : pyval) :
  entries_loop w st (earlier ++ [last])%list = Ok st' →
  ∃ n d, parse_entry w last = Ok (n, d)
         ∧ name st' = Some n ∧ data_dict st' !! n = Some d.
Proof.
  rewrite entries_loop_app. intros H. bind_inv H. simpl in H.
  bind_inv H. injection H as <-. unfold entry_step in Hx0.
  bind_inv Hx0. injection Hx0 as <-. destruct x1 as [n d].
  exists n, d. simpl. by rewrite lookup_insert_eq.
Qed.

Lemma entries_loop_returns (w : world) (st : loader_state) (es : list pyval) :
  (∀ e, e ∈ es → returns (parse_entry w e)) →
  returns (entries_loop w st es).
Proof.
  revert st. induction es as [|e es IH]; intros st Hall; [by eexists|].
  simpl. unfold entry_step.
  destruct (Hall e (ltac:(left))) as [nd ->]. simpl.
  apply IH. intros e' He'. apply Hall. by right.
Qed.

(** C4: with several dataset entries in the configuration,
    [get_details_from_conf] returns the descriptor of the entry parsed
    last, and only that one: whenever it returns, the value is the
    descriptor built from the last entry, and it does return when the
    values under the data keys can be iterated and every entry parses. *)
Theorem C4_only_last_entry_returned (w : world)
    (data_dict0 : gmap string descriptor) (items : list (string * pyval))
    (earlier : list pyval) (last : pyval) :
  conf_yaml w = Ok (PyDict items) →
  config_entries items = (earlier ++ [last])%list →
  (∀ d, get_details_from_conf w data_dict0 = Ok d →
        ∃ n, parse_entry w last = Ok (n, d))
  ∧ ((∀ k v, (k, v) ∈ items → str_contains "data" k = true →
             returns (py_iter v)) →
     (∀ e, e ∈ (earlier ++ [last])%list → returns (parse_entry w e)) →
     ∃ n d, parse_entry w last = Ok (n, d)
            ∧ get_details_from_conf w data_dict0 = Ok d).
Proof.
  intros Hconf Hentries.
  set (st0 := {| data_dict := data_dict0; name := None |}).
  assert (Hload : load_conf w data_dict0 = items_loop w st0 items).
  { unfold load_conf. by rewrite Hconf. }
  split.
  - intros d Hret. unfold get_details_from_conf in Hret.
    rewrite Hload in Hret. bind_inv Hret.
    apply items_loop_entries in Hx. rewrite Hentries in Hx.
    destruct (entries_loop_last _ _ _ _ _ Hx) as (n & d' & Hparse & Hname & Hd).
    rewrite Hname, Hd in Hret. injection Hret as <-. by exists n.
  - intros Hiter Hparse. unfold get_details_from_conf. rewrite Hload.
    rewrite (entries_items_loop w items st0 Hiter), Hentries.
    destruct (entries_loop_returns w st0 _ Hparse) as [st' Hst'].
    rewrite Hst'. simpl.
    destruct (entries_loop_last _ _ _ _ _ Hst') as (n & d & Hlast & Hname & Hd).
    exists n, d. by rewrite Hname, Hd.
Qed.

Lemma C4_only_last_entry_returned_witness :
  ∃ n d,
    parse_entry (Scenario.sample_world Scenario.login_ok Scenario.two_datasets)
      Scenario.second_entry = Ok (n, d)
    ∧ get_details_from_conf
        (Scenario.sample_world Scenario.login_ok Scenario.two_datasets) ∅
      = Ok d.
Proof.
  pose (w := Scenario.sample_world Scenario.login_ok Scenario.two_datasets).
  refine (proj2 (C4_only_last_entry_returned w ∅
                   [("app", PyStr "dremio");
                    ("data", PyList [Scenario.first_entry; Scenario.second_entry])]
                   [Scenario.first_entry] Scenario.second_entry
                   eq_refl eq_refl) _ _).
  - intros k v Hin Hkey.
    apply elem_of_cons in Hin as [[= -> ->] | Hin]; [done|].
    apply elem_of_cons in Hin as [[= -> ->] | Hin]; [by eexists|].
    by apply elem_of_nil in Hin.
  - intros e Hin.
    apply elem_of_cons in Hin as [-> | Hin]; [by eexists|].
    apply elem_of_cons in Hin as [-> | Hin]; [by eexists|].
    by apply elem_of_nil in Hin.
Defined.

(** C8: for every entry the loader turns into a descriptor, the
    [transformations] field is decoded as base64 and then as JSON; the
    [name] field of the first element of the array is the transformation
    stored in the descriptor, and the [columns] field of the object that
    the first element holds under that name is the protected column list
    stored in the descriptor, which is the one put in [data_dict]. *)
Theorem C8_transformation_decoding (w : world) (data : pyval) (n : string)
    (d : descriptor) :
  parse_entry w data = Ok (n, d) →
  (∃ encoded raw text array first policy,
      py_getitem data "transformations" = Ok encoded
      ∧ b64decode w encoded = Ok raw
      ∧ utf8_decode w raw = Ok text
      ∧ json_loads w text = Ok array
      ∧ py_subscript array (PyInt 0) = Ok first
      ∧ py_getitem first "name" = Ok (transformation d)
      ∧ py_subscript first (transformation d) = Ok policy
      ∧ py_getitem policy "columns" = Ok (transformation_cols d))
  ∧ ∀ st, ∃ st', entry_step w st data = Ok st'
                 ∧ data_dict st' !! n = Some d.
Proof.
  intros Hparse. split.
  - unfold parse_entry in Hparse.
    do 20 bind_inv Hparse. injection Hparse as <- <-. simpl.
    match goal with
    | H1 : py_subscript ?a (PyInt 0) = Ok ?f1,
      H2 : py_subscript ?a (PyInt 0) = Ok ?f2 |- _ =>
        rewrite H1 in H2; injection H2 as <-
    end.
    by eexists _, _, _, _, _, _.
  - intros st. unfold entry_step. rewrite Hparse. simpl.
    eexists. split; [done|]. simpl. by rewrite lookup_insert_eq.
Qed.

Lemma C8_transformation_decoding_witness :
  parse_entry (Scenario.sample_world Scenario.login_ok Scenario.two_datasets)
    Scenario.first_entry = Ok ("first", Scenario.first_descriptor)
  ∧ ∃ encoded raw text array first policy,
      py_getitem Scenario.first_entry "transformations" = Ok encoded
      ∧ b64decode (Scenario.sample_world Scenario.login_ok Scenario.two_datasets)
          encoded = Ok raw
      ∧ utf8_decode (Scenario.sample_world Scenario.login_ok Scenario.two_datasets)
          raw = Ok text
      ∧ json_loads (Scenario.sample_world Scenario.login_ok Scenario.two_datasets)
          text = Ok array
      ∧ py_subscript array (PyInt 0) = Ok first
      ∧ py_getitem first "name" = Ok (PyStr "RedactAction")
      ∧ py_subscript first (PyStr "RedactAction") = Ok policy
      ∧ py_getitem policy "columns" = Ok (PyList [PyStr "ssn"]).
Proof.
  split; [reflexivity|].
  exact (proj1 (C8_transformation_decoding
                  (Scenario.sample_world Scenario.login_ok Scenario.two_datasets)
                  Scenario.first_entry "first" Scenario.first_descriptor
                  eq_refl)).
Defined.

(** C9: when no top-level key of the configuration contains [data], or
    every such key maps to an empty list, [get_details_from_conf] returns
    nothing, neither an empty mapping nor a default: it ends with the error
    of reading the local [name], which no iteration has bound. *)
Theorem C9_no_entry_is_an_error (w : world)
    (data_dict0 : gmap string descriptor) (items : list (string * pyval)) :
  conf_yaml w = Ok (PyDict items) →
  (∀ k v, (k, v) ∈ items → str_contains "data" k = true → v = PyList []) →
  get_details_from_conf w data_dict0 = Raise (UnboundLocalError "name").
Proof.
  intros Hconf Hempty.
  unfold get_details_from_conf, load_conf. rewrite Hconf. simpl.
  set (st0 := {| data_dict := data_dict0; name := None |}).
  assert (Hloop : items_loop w st0 items = Ok st0).
  { clear Hconf. induction items as [|[key val] items IH]; [done|].
    simpl. destruct (str_contains "data" key) eqn:Hkey.
    - rewrite (Hempty key val (ltac:(left)) Hkey). simpl.
      apply IH. intros k v Hin. apply Hempty. by right.
    - simpl. apply IH. intros k v Hin. apply Hempty. by right. }
  by rewrite Hloop.
Qed.

Lemma C9_no_entry_is_an_error_witness :
  get_details_from_conf
    (Scenario.sample_world Scenario.login_ok Scenario.no_datasets) ∅
  = Raise (UnboundLocalError "name").
Proof.
  refine (C9_no_entry_is_an_error
            (Scenario.sample_world Scenario.login_ok Scenario.no_datasets) ∅
            [("app", PyStr "dremio"); ("data", PyList [])] eq_refl _).
  intros k v Hin Hkey.
  apply elem_of_cons in Hin as [[= -> ->] | Hin]; [done|].
  apply elem_of_cons in Hin as [[= -> ->] | Hin]; [done|].
  by apply elem_of_nil in Hin.
Defined.

End ConfFacts.


(** ** Splitting and joining strings *)

Module StringFacts.
Import Py PyMore.

Lemma seq_index_second {A : Type} (a b : A) (l : list A) :
  seq_index (a :: b :: l) 1 = Ok b.
Proof.
  unfold seq_index. cbn [length Z.ltb Z.compare].
  destruct (Z.leb_spec (Z.of_nat (S (S (length l)))) 1) as [Hle|Hgt]; [lia|].
  reflexivity.
Qed.

Lemma prefix_empty (s : string) : String.prefix EmptyString s = true.
Proof. by destruct s. Qed.

Lemma prefix_cons (a b : Ascii.ascii) (s1 s2 : string) :
  String.prefix (String a s1) (String b s2)
  = Ascii.eqb a b && String.prefix s1 s2.
Proof.
  cbn [String.prefix]. destruct (Ascii.ascii_dec a b) as [->|Hne].
  - by rewrite Ascii.eqb_refl.
  - apply Ascii.eqb_neq in Hne. by rewrite Hne.
Qed.

Lemma prefix_char (c a : Ascii.ascii) (rest : string) :
  String.prefix (String c EmptyString) (String a rest) = Ascii.eqb a c.
Proof.
  simpl. destruct (Ascii.ascii_dec c a) as [->|Hne].
  - by rewrite prefix_empty, Ascii.eqb_refl.
  - symmetry. apply Ascii.eqb_neq. congruence.
Qed.

Lemma str_contains_char (c a : Ascii.ascii) (rest : string) :
  str_contains (String c EmptyString) (String a rest)
  = Ascii.eqb a c || str_contains (String c EmptyString) rest.
Proof.
  change (str_contains (String c EmptyString) (String a rest))
    with (String.prefix (String c EmptyString) (String a rest)
          || str_contains (String c EmptyString) rest).
  by rewrite prefix_char.
Qed.

Lemma str_split_not_nil (c : Ascii.ascii) (s : string) : str_split c s ≠ [].
Proof.
  induction s as [|a rest IH]; simpl; [done|].
  destruct (Ascii.eqb a c); [done|]. by destruct (str_split c rest).
Qed.

(** The general split agrees with the one-character split. *)
Lemma split_from_char (c : Ascii.ascii) (s : string) :
  split_from (String c EmptyString) 0 s = str_split c s.
Proof.
  induction s as [|a rest IH]; [done|].
  cbn [split_from]. rewrite prefix_char. cbn [String.length Nat.sub].
  rewrite IH. simpl. by destruct (Ascii.eqb a c).
Qed.

Lemma concat_cons_cons (sep x y : string) (l : list string) :
  String.concat sep (x :: y :: l) = x +:+ sep +:+ String.concat sep (y :: l).
Proof. reflexivity. Qed.

(** [sep.join(s.split(sep)) == s] *)
Lemma join_split (c : Ascii.ascii) (s : string) :
  String.concat (String c EmptyString) (str_split c s) = s.
Proof.
  induction s as [|a rest IH]; [done|]. simpl.
  pose proof (str_split_not_nil c rest) as Hne.
  destruct (Ascii.eqb_spec a c) as [->|Hac];
    destruct (str_split c rest) as [|piece pieces] eqn:Hsplit; try done.
  - rewrite concat_cons_cons, IH. reflexivity.
  - destruct pieces as [|p2 ps].
    + simpl in *. by rewrite IH.
    + rewrite concat_cons_cons in *. rewrite <- IH. reflexivity.
Qed.

(** No piece of a split holds the separator. *)
Lemma split_pieces_clean (c : Ascii.ascii) (s : string) :
  Forall (λ piece, str_contains (String c EmptyString) piece = false)
         (str_split c s).
Proof.
  induction s as [|a rest IH]; simpl.
  - by repeat constructor.
  - destruct (Ascii.eqb a c) eqn:Hac.
    + constructor; [done | exact IH].
    + pose proof (str_split_not_nil c rest) as Hne.
      destruct (str_split c rest) as [|piece pieces]; [done|].
      inversion IH as [|? ? Hpiece Hpieces]; subst.
      constructor; [|done]. by rewrite str_contains_char, Hac, Hpiece.
Qed.

Lemma split_no_separator (c : Ascii.ascii) (s : string) :
  str_contains (String c EmptyString) s = false → str_split c s = [s].
Proof.
  induction s as [|a rest IH]; [done|].
  rewrite str_contains_char. intros [Hac Hrest]%orb_false_elim.
  simpl. rewrite Hac, (IH Hrest). done.
Qed.

Lemma split_at_first (c : Ascii.ascii) (a b : string) :
  str_contains (String c EmptyString) a = false →
  str_split c (a +:+ String c b) = a :: str_split c b.
Proof.
  induction a as [|x a IH].
  - intros _. change (EmptyString +:+ String c b) with (String c b).
    simpl. by rewrite Ascii.eqb_refl.
  - rewrite str_contains_char. intros [Hxc Ha]%orb_false_elim.
    change (String x a +:+ String c b) with (String x (a +:+ String c b)).
    simpl. rewrite Hxc, (IH Ha). done.
Qed.

(** Past a matched separator the split goes on after it. *)
Lemma split_from_skip (sep a b : string) :
  split_from sep (String.length a) (a +:+ b) = split_from sep 0 b.
Proof.
  induction a as [|x a IH]; [by destruct b|].
  change (String x a +:+ b) with (String x (a +:+ b)). simpl. exact IH.
Qed.

Lemma split_from_no_occurrence (sep s : string) :
  str_contains sep s = false → split_from sep 0 s = [s].
Proof.
  induction s as [|a rest IH]; [done|].
  change (str_contains sep (String a rest))
    with (String.prefix sep (String a rest) || str_contains sep rest).
  intros [Hpre Hrest]%orb_false_elim.
  cbn [split_from]. rewrite Hpre, (IH Hrest). done.
Qed.

End StringFacts.


(** ** More on the policy query *)

Module PolicyMoreFacts.
Import Py PyMore Policy PolicyDyn.

Lemma request_cols_nil_iff (protectedCols allCols : list string) :
  request_cols protectedCols allCols = [] ↔ ∀ c, c ∈ allCols → c ∈ protectedCols.
Proof.
  induction allCols as [|c cs IH]; simpl.
  - split; [|done]. intros _ c Hc. by apply elem_of_nil in Hc.
  - destruct (py_in c protectedCols) eqn:Hin; simpl.
    + apply PolicyFacts.py_in_spec in Hin. rewrite IH. split.
      * intros H x [->|Hx]%elem_of_cons; auto.
      * intros H x Hx. apply H. by right.
    + split; [done|]. intros H.
      assert (c ∈ protectedCols) as Hc by (apply H; by left).
      apply PolicyFacts.py_in_spec in Hc. congruence.
Qed.

(** The policy query is the empty string exactly when every column is
    protected: any unprotected column gives a text that starts with
    [select]. *)
Theorem policy_query_empty_iff (protectedCols allCols : list string)
    (path : string) :
  get_policy_query protectedCols path allCols = EmptyString
  ↔ ∀ c, c ∈ allCols → c ∈ protectedCols.
Proof.
  rewrite <- request_cols_nil_iff. unfold get_policy_query.
  destruct (request_cols protectedCols allCols) as [|c cs]; [done|].
  split; [|done]. intros H. exfalso. revert H.
  rewrite !PolicyFacts.append_assoc.
  change ("select " +:+ ?x) with (String "s" ("elect " +:+ x)). done.
Qed.

(** Protected names that are not columns of the table change nothing: two
    policies that agree on the columns of the table give the same query. *)
Theorem policy_query_only_table_columns (p1 p2 allCols : list string)
    (path : string) :
  (∀ c, c ∈ allCols → (c ∈ p1 ↔ c ∈ p2)) →
  get_policy_query p1 path allCols = get_policy_query p2 path allCols.
Proof.
  intros Hsame. unfold get_policy_query.
  replace (request_cols p2 allCols) with (request_cols p1 allCols); [done|].
  induction allCols as [|c cs IH]; [done|]. simpl.
  assert (py_in c p1 = py_in c p2) as ->.
  { apply eq_true_iff_eq. rewrite !PolicyFacts.py_in_spec.
    apply Hsame. by left. }
  rewrite IH; [done|]. intros x Hx. apply Hsame. by right.
Qed.

Lemma policy_query_only_table_columns_witness :
  get_policy_query ["ssn"] Scenario.example_path ["id"; "ssn"]
  = get_policy_query ["ssn"; "iban"] Scenario.example_path ["id"; "ssn"].
Proof.
  apply policy_query_only_table_columns.
  intros c Hc. rewrite !elem_of_cons, !elem_of_nil in *.
  intuition congruence.
Defined.

Lemma py_eq_str (a b : string) : py_eq (PyStr a) (PyStr b) = String.eqb a b.
Proof. reflexivity. Qed.

Lemma py_in_strings (c : string) (p : list string) :
  PyMore.py_in (PyStr c) (PyList (map PyStr p)) = Ok (Policy.py_in c p).
Proof.
  unfold PyMore.py_in, Policy.py_in. f_equal.
  induction p as [|x p IH]; [done|]. cbn [map existsb]. by rewrite IH.
Qed.

Lemma request_cols_dyn_strings (p cols : list string) :
  request_cols_dyn (PyList (map PyStr p)) (map PyStr cols)
  = Ok (map PyStr (request_cols p cols)).
Proof.
  induction cols as [|c cs IH]; [done|].
  cbn [map request_cols_dyn]. rewrite py_in_strings, IH. simpl.
  by destruct (Policy.py_in c p).
Qed.

Lemma accumulate_strings (first : string) (others : list string) :
  accumulate (PyStr first) (map PyStr others)
  = Ok (PyStr (requested_cols_string first others)).
Proof.
  revert first. induction others as [|c cs IH]; intros first; [done|].
  simpl. by rewrite IH.
Qed.

(** On lists of strings the script's [get_policy_query] is the function
    on strings: it returns, and its value is the same text. *)
Theorem policy_query_dyn_on_strings (protectedCols allCols : list string)
    (path : string) :
  get_policy_query_dyn (PyList (map PyStr protectedCols)) path
    (map PyStr allCols)
  = Ok (PyStr (get_policy_query protectedCols path allCols)).
Proof.
  unfold get_policy_query_dyn, get_policy_query.
  rewrite request_cols_dyn_strings. simpl.
  destruct (request_cols protectedCols allCols) as [|c cs]; [done|].
  cbn [map]. by rewrite accumulate_strings.
Qed.

Lemma request_cols_dyn_list (l cols : list pyval) :
  request_cols_dyn (PyList l) cols
  = Ok (List.filter (λ c, negb (existsb (py_eq c) l)) cols).
Proof.
  induction cols as [|c cs IH]; [done|].
  cbn [request_cols_dyn List.filter]. rewrite IH. simpl.
  by destruct (existsb (py_eq c) l).
Qed.

Lemma accumulate_from_no_string (acc : pyval) (others : list pyval) :
  is_string acc = false → no_text (accumulate acc others).
Proof.
  revert acc. induction others as [|col rest IH]; intros acc Hacc.
  - right. by exists acc.
  - simpl. destruct col as [| | |c| |]; try (by left).
    simpl. destruct acc as [| | |a|x|]; try (by left); try done.
    simpl. by apply IH.
Qed.

Lemma accumulate_some_no_string (first : string) (others : list pyval) :
  forallb is_string others = false →
  accumulate (PyStr first) others = Raise TypeError.
Proof.
  revert first. induction others as [|col rest IH]; intros first; [done|].
  simpl. destruct col as [| | |c| |]; try done. simpl. apply IH.
Qed.

Lemma accumulate_all_strings (first : string) (others : list pyval) :
  forallb is_string others = true →
  accumulate (PyStr first) others
  = Ok (PyStr (requested_cols_string first (omap as_string others))).
Proof.
  revert first. induction others as [|col rest IH]; intros first; [done|].
  simpl. destruct col as [| | |c| |]; try done. simpl. apply IH.
Qed.

Lemma get_policy_query_dyn_list (policy col_names : list pyval)
    (path : string) :
  let kept := List.filter (λ c, negb (existsb (py_eq c) policy)) col_names in
  get_policy_query_dyn (PyList policy) path col_names
  = if forallb is_string kept
    then Ok (PyStr (render_query (omap as_string kept) path))
    else Raise TypeError.
Proof.
  intros kept. unfold get_policy_query_dyn.
  rewrite request_cols_dyn_list. fold kept. simpl.
  destruct kept as [|first others]; [done|].
  cbn [forallb]. destruct first as [| | |f| |]; cbn [is_string andb].
  5:{ destruct (accumulate_from_no_string (PyList l) others eq_refl)
        as [-> | (v & -> & Hv)]; [done|]. by destruct v. }
  5:{ destruct (accumulate_from_no_string (PyDict d) others eq_refl)
        as [-> | (v & -> & Hv)]; [done|]. by destruct v. }
  1:{ destruct (accumulate_from_no_string PyNone others eq_refl)
        as [-> | (v & -> & Hv)]; [done|]. by destruct v. }
  1:{ destruct (accumulate_from_no_string (PyBool b) others eq_refl)
        as [-> | (v & -> & Hv)]; [done|]. by destruct v. }
  1:{ destruct (accumulate_from_no_string (PyInt n) others eq_refl)
        as [-> | (v & -> & Hv)]; [done|]. by destruct v. }
  destruct (forallb is_string others) eqn:Hall.
  - rewrite (accumulate_all_strings f others Hall). simpl.
    rewrite PolicyFacts.requested_cols_string_concat.
    by rewrite !PolicyFacts.append_assoc.
  - by rewrite (accumulate_some_no_string f others Hall).
Qed.

(** With a list as policy, the script's [get_policy_query] returns exactly
    when every column it keeps is a string, and then the text over those
    columns; one kept column that is not a string (a schema element without
    a name gives [None]) makes it raise [TypeError]. *)
Theorem policy_query_dyn_needs_strings (policy col_names : list pyval)
    (path : string) :
  let kept := List.filter (λ c, negb (existsb (py_eq c) policy)) col_names in
  get_policy_query_dyn (PyList policy) path col_names
  = if forallb is_string kept
    then Ok (PyStr (render_query (omap as_string kept) path))
    else Raise TypeError.
Proof. apply get_policy_query_dyn_list. Qed.

End PolicyMoreFacts.


(** ** More on the secret resolver *)

Module VaultMoreFacts.
Import Py World Vault ResultFacts.

(** Whatever Vault answers and whatever the values of the secret are, a
    pair returned by [get_credentials_from_vault] holds the [access_key]
    and the [secret_key] of the secret, in that order, and both are truthy. *)
Theorem credentials_returned_are_truthy (w : world)
    (vault_credentials data_set_id access secret : pyval) :
  get_credentials_from_vault w vault_credentials data_set_id
    = Ok (access, secret) →
  truthy access = true ∧ truthy secret = true
  ∧ ∃ credentials,
      resolve_secret w vault_credentials data_set_id = Ok credentials
      ∧ py_getitem credentials "access_key" = Ok access
      ∧ py_getitem credentials "secret_key" = Ok secret.
Proof.
  unfold get_credentials_from_vault. intros H. bind_inv H.
  rename x into credentials. unfold check_credentials in H.
  destruct (truthy credentials); [|done]. simpl in H.
  bind_inv H. bind_inv H.
  destruct (x && x0); [|done].
  bind_inv H. bind_inv H. destruct x2; [|by do 2 bind_inv H].
  destruct (truthy x1) eqn:Hacc; [|done].
  bind_inv Hx3. injection Hx3 as Hsec.
  do 2 bind_inv H. injection H as <- <-.
  repeat match goal with
         | H1 : ?t = Ok ?a, H2 : ?t = Ok ?b |- _ =>
             assert (a = b) as -> by congruence; clear H2
         end.
  repeat split; [done..|]. by exists credentials.
Qed.

Lemma credentials_returned_are_truthy_witness :
  truthy (PyStr "AKIA") = true ∧ truthy (PyStr "s3cr3t") = true.
Proof.
  pose (w := Scenario.sample_world Scenario.login_ok Scenario.two_datasets).
  destruct (credentials_returned_are_truthy w Scenario.vault_settings
              (PyStr "ns/first") (PyStr "AKIA") (PyStr "s3cr3t") eq_refl)
    as (Ha & Hs & _).
  by split.
Defined.

(** For a secret that is a mapping with values of any kind, the keys are
    accepted exactly when both are present and truthy: a key whose value is
    [None], [False], 0, an empty string, list or mapping is refused with the
    missing-credentials error, like an absent one. *)
Theorem credentials_of_any_mapping (w : world)
    (vault_credentials data_set_id : pyval) (d : list (string * pyval)) :
  resolve_secret w vault_credentials data_set_id = Ok (PyDict d) →
  get_credentials_from_vault w vault_credentials data_set_id
  = match dict_get "access_key" d, dict_get "secret_key" d with
    | Some access, Some secret =>
        if truthy access && truthy secret then Ok (access, secret)
        else Raise missing_credentials
    | _, _ => Raise missing_credentials
    end.
Proof.
  intros Hres. unfold get_credentials_from_vault.
  rewrite (bind_ok _ _ _ Hres), VaultFacts.check_credentials_dict.
  destruct d as [|kv d']; [done|]. done.
Qed.

Lemma credentials_of_any_mapping_witness :
  get_credentials_from_vault
    (Scenario.sample_world Scenario.login_ok Scenario.two_datasets)
    Scenario.vault_settings (PyStr "ns/first")
  = Ok (PyStr "AKIA", PyStr "s3cr3t").
Proof.
  exact (credentials_of_any_mapping
           (Scenario.sample_world Scenario.login_ok Scenario.two_datasets)
           Scenario.vault_settings (PyStr "ns/first")
           [("access_key", PyStr "AKIA"); ("secret_key", PyStr "s3cr3t")]
           eq_refl).
Defined.

End VaultMoreFacts.


(** ** More on the config loader *)

Module ConfMoreFacts.
Import Py World Vault Conf ResultFacts.

(** The local name of a dataset is the second segment of its id: what
    follows a second slash is dropped, so ids that differ only in their
    first segment or beyond the second share one key of [data_dict]. *)
Theorem local_name_is_second_segment (first second beyond : string) :
  str_contains "/" first = false →
  str_contains "/" second = false →
  py_split_slash_1 (PyStr (first +:+ "/" +:+ second)) = Ok second
  ∧ py_split_slash_1 (PyStr (first +:+ "/" +:+ second +:+ "/" +:+ beyond))
    = Ok second.
Proof.
  intros Hfirst Hsecond. unfold py_split_slash_1.
  change (first +:+ "/" +:+ second) with (first +:+ String "/" second).
  change (first +:+ "/" +:+ second +:+ "/" +:+ beyond)
    with (first +:+ String "/" (second +:+ String "/" beyond)).
  rewrite !(StringFacts.split_at_first "/" first) by done.
  rewrite (StringFacts.split_no_separator "/" second) by done.
  rewrite (StringFacts.split_at_first "/" second) by done.
  split; [done|].
  apply StringFacts.seq_index_second.
Qed.

Lemma local_name_is_second_segment_witness :
  py_split_slash_1 (PyStr "ns/table") = Ok "table"
  ∧ py_split_slash_1 (PyStr "ns/table/part/0") = Ok "table".
Proof.
  exact (local_name_is_second_segment "ns" "table" "part/0" eq_refl eq_refl).
Defined.

(** A dataset whose id has no slash cannot be loaded: the entry raises
    [IndexError], whatever else it holds. *)
Theorem entry_without_slash_raises (w : world) (d : list (string * pyval))
    (dataset_id : string) :
  dict_get "name" d = Some (PyStr dataset_id) →
  str_contains "/" dataset_id = false →
  parse_entry w (PyDict d) = Raise IndexError.
Proof.
  intros Hname Hslash. unfold parse_entry, py_getitem, py_subscript.
  rewrite Hname. simpl. unfold py_split_slash_1.
  by rewrite (StringFacts.split_no_separator "/" dataset_id Hslash).
Qed.

Lemma entry_without_slash_raises_witness :
  parse_entry (Scenario.sample_world Scenario.login_ok Scenario.two_datasets)
    (PyDict [("name", PyStr "table"); ("format", PyStr "iceberg")])
  = Raise IndexError.
Proof.
  exact (entry_without_slash_raises
           (Scenario.sample_world Scenario.login_ok Scenario.two_datasets)
           [("name", PyStr "table"); ("format", PyStr "iceberg")] "table"
           eq_refl eq_refl).
Defined.

(** The loader stops at the first entry it cannot parse and raises that
    entry's error, also when later entries are well formed. *)
Theorem first_bad_entry_aborts (w : world)
    (data_dict0 : gmap string descriptor) (items : list (string * pyval))
    (before after : list pyval) (bad : pyval) (err : exn) :
  conf_yaml w = Ok (PyDict items) →
  (∀ k v, (k, v) ∈ items → str_contains "data" k = true → returns (py_iter v)) →
  config_entries items = (before ++ bad :: after)%list →
  (∀ e, e ∈ before → returns (parse_entry w e)) →
  parse_entry w bad = Raise err →
  get_details_from_conf w data_dict0 = Raise err.
Proof.
  intros Hconf Hiter Hentries Hbefore Hbad.
  unfold get_details_from_conf, load_conf. rewrite Hconf. simpl.
  rewrite (ConfFacts.entries_items_loop w items _ Hiter), Hentries.
  rewrite ConfFacts.entries_loop_app.
  destruct (ConfFacts.entries_loop_returns w
              {| data_dict := data_dict0; name := None |} before Hbefore)
    as [st ->].
  simpl. unfold entry_step. by rewrite Hbad.
Qed.

Lemma first_bad_entry_aborts_witness :
  get_details_from_conf
    (Scenario.sample_world Scenario.login_ok
       (PyDict [("data", PyList [Scenario.first_entry;
                                 PyDict [("name", PyStr "table")];
                                 Scenario.second_entry])])) ∅
  = Raise IndexError.
Proof.
  refine (first_bad_entry_aborts
            (Scenario.sample_world Scenario.login_ok
               (PyDict [("data", PyList [Scenario.first_entry;
                                         PyDict [("name", PyStr "table")];
                                         Scenario.second_entry])])) ∅
            [("data", PyList [Scenario.first_entry;
                              PyDict [("name", PyStr "table")];
                              Scenario.second_entry])]
            [Scenario.first_entry] [Scenario.second_entry]
            (PyDict [("name", PyStr "table")]) IndexError
            eq_refl _ eq_refl _ eq_refl).
  - intros k v Hin Hkey.
    apply elem_of_cons in Hin as [[= -> ->] | Hin]; [by eexists|].
    by apply elem_of_nil in Hin.
  - intros e Hin.
    apply elem_of_cons in Hin as [-> | Hin]; [by eexists|].
    by apply elem_of_nil in Hin.
Defined.

(** What the loops leave in [data_dict] and [name] after a list of
    entries. *)
Lemma entries_loop_fold (w : world) (entries : list pyval)
    (st st' : loader_state) :
  entries_loop w st entries = Ok st' →
  ∃ parsed,
    Forall2 (λ e nd, parse_entry w e = Ok nd) entries parsed
    ∧ data_dict st' = foldl (λ m nd, <[nd.1 := nd.2]> m) (data_dict st) parsed
    ∧ name st' = from_option Some (name st) (last (fst <$> parsed)).
Proof.
  revert st. induction entries as [|e es IH]; intros st H.
  - injection H as <-. exists []. by repeat split.
  - simpl in H. bind_inv H. unfold entry_step in Hx. bind_inv Hx.
    injection Hx as <-. destruct (IH _ H) as (parsed & Hall & Hdict & Hname).
    exists (x0 :: parsed). repeat split.
    + by constructor.
    + exact Hdict.
    + rewrite Hname. cbn [name]. rewrite fmap_cons, last_cons.
      by destruct (last parsed.*1).
Qed.

(** Though only one descriptor is returned, [data_dict] keeps them all:
    after a load it is the dictionary held before, with the descriptor of
    every entry stored under its local name in the order of the entries, a
    later entry replacing an earlier one of the same name. *)
Theorem data_dict_keeps_every_entry (w : world)
    (data_dict0 : gmap string descriptor) (items : list (string * pyval))
    (st : loader_state) :
  conf_yaml w = Ok (PyDict items) →
  load_conf w data_dict0 = Ok st →
  ∃ parsed,
    Forall2 (λ e nd, parse_entry w e = Ok nd) (config_entries items) parsed
    ∧ data_dict st = foldl (λ m nd, <[nd.1 := nd.2]> m) data_dict0 parsed
    ∧ (∀ n, n ∈ (fst <$> parsed) → is_Some (data_dict st !! n))
    ∧ (∀ n, is_Some (data_dict0 !! n) → is_Some (data_dict st !! n)).
Proof.
  intros Hconf Hload. unfold load_conf in Hload. rewrite Hconf in Hload.
  simpl in Hload. apply ConfFacts.items_loop_entries in Hload.
  destruct (entries_loop_fold _ _ _ _ Hload) as (parsed & Hall & Hdict & _).
  simpl in Hdict. exists parsed. split; [done|]. split; [done|].
  rewrite Hdict. clear. revert data_dict0.
  induction parsed as [|[n d] parsed IH]; intros m; simpl.
  - split; [|done]. intros n Hn. by apply elem_of_nil in Hn.
  - destruct (IH (<[n:=d]> m)) as [Hnew Hold]. split.
    + intros n' [->|Hn']%elem_of_cons; [|by apply Hnew].
      apply Hold. rewrite lookup_insert_eq. by eexists.
    + intros n' Hn'. apply Hold.
      destruct (decide (n = n')) as [->|Hne].
      * rewrite lookup_insert_eq. by eexists.
      * by rewrite lookup_insert_ne.
Qed.

Lemma data_dict_keeps_every_entry_witness :
  ∃ st,
    load_conf (Scenario.sample_world Scenario.login_ok Scenario.two_datasets) ∅
    = Ok st
    ∧ is_Some (data_dict st !! "first") ∧ is_Some (data_dict st !! "second").
Proof.
  pose (w := Scenario.sample_world Scenario.login_ok Scenario.two_datasets).
  destruct (load_conf w ∅) as [st|e] eqn:Hload; [|by vm_compute in Hload].
  exists st. split; [done|].
  destruct (data_dict_keeps_every_entry w ∅ _ st eq_refl Hload)
    as (parsed & Hall & _ & Hnew & _).
  assert (Hnames : fst <$> parsed = ["first"; "second"]).
  { inversion Hall as [|? nd1 ? rest1 H1 Hrest1]; subst.
    inversion Hrest1 as [|? nd2 ? rest2 H2 Hrest2]; subst.
    inversion Hrest2; subst.
    vm_compute in H1. vm_compute in H2.
    injection H1 as <-. injection H2 as <-. done. }
  split; apply Hnew; rewrite Hnames, !elem_of_cons; auto.
Defined.

Lemma entries_loop_same_services (w : world) (c1 c2 : result pyval)
    (st : loader_state) (entries : list pyval) :
  entries_loop (ConfMore.with_conf w c1) st entries
  = entries_loop (ConfMore.with_conf w c2) st entries.
Proof.
  revert st. induction entries as [|e es IH]; intros st; [done|].
  cbn [entries_loop].
  change (entry_step (ConfMore.with_conf w c1) st e)
    with (entry_step (ConfMore.with_conf w c2) st e).
  destruct (entry_step (ConfMore.with_conf w c2) st e); simpl; [apply IH | done].
Qed.

Lemma items_loop_data_items (w : world) (c1 c2 : result pyval)
    (st : loader_state) (items : list (string * pyval)) :
  items_loop (ConfMore.with_conf w c1) st items
  = items_loop (ConfMore.with_conf w c2) st (ConfMore.data_items items).
Proof.
  revert st. induction items as [|[key val] items IH]; intros st; [done|].
  unfold ConfMore.data_items. cbn [List.filter fst].
  destruct (str_contains "data" key) eqn:Hkey.
  - cbn [items_loop]. rewrite Hkey.
    destruct (py_iter val) as [es|e]; simpl; [|done].
    rewrite (entries_loop_same_services w c1 c2).
    destruct (entries_loop _ st es); simpl; [apply IH | done].
  - cbn [items_loop]. rewrite Hkey. simpl. apply IH.
Qed.

(** In a configuration whose top-level keys are all strings (the
    mappings [PyDict] holds), only the keys whose name contains [data]
    count: the loader gives the same result, value or error, on the
    configuration and on the same configuration without its other keys. *)
Theorem other_keys_are_ignored (w : world) (items : list (string * pyval))
    (data_dict0 : gmap string descriptor) :
  get_details_from_conf (ConfMore.with_conf w (Ok (PyDict items))) data_dict0
  = get_details_from_conf
      (ConfMore.with_conf w (Ok (PyDict (ConfMore.data_items items))))
      data_dict0.
Proof.
  unfold get_details_from_conf, load_conf. cbn [conf_yaml ConfMore.with_conf].
  simpl. by rewrite (items_loop_data_items w _
                       (Ok (PyDict (ConfMore.data_items items)))).
Qed.

End ConfMoreFacts.


(** ** More on the readiness waiter *)

Module WaitMoreFacts.
Import Py Wait WaitMore.

Lemma wait_loop_step (connect : nat → bool) (host : string) (port count : Z)
    (attempt : nat) :
  (count < 30)%Z →
  wait_loop connect host port count attempt
  = LogInfo "wait dremio" :: Connect host port ::
    (if connect attempt then []
     else LogInfo "sleeping, waiting dremio" :: Sleep 10 ::
          wait_loop connect host port (count + 1) (S attempt)).
Proof.
  intros Hlt. simp wait_loop.
  destruct (Z_lt_dec count 30) as [?|Hge]; simpl; [by simp wait_loop | lia].
Qed.

Lemma wait_loop_done (connect : nat → bool) (host : string) (port count : Z)
    (attempt : nat) :
  (30 <= count)%Z → wait_loop connect host port count attempt = [].
Proof.
  intros Hge. simp wait_loop.
  destruct (Z_lt_dec count 30) as [Hlt|?]; simpl; [lia | done].
Qed.

Lemma wait_loop_first_success (connect : nat → bool) (host : string) (port : Z) :
  ∀ (j : nat) (count : Z) (attempt : nat),
    (∀ n, attempt ≤ n < attempt + j → connect n = false) →
    connect (attempt + j) = true →
    (count + Z.of_nat j < 30)%Z →
    wait_loop connect host port count attempt
    = (concat (replicate j (failed_round host port))
       ++ [LogInfo "wait dremio"; Connect host port])%list.
Proof.
  induction j as [|j IH]; intros count attempt Hfail Hok Hlt.
  - rewrite wait_loop_step by lia. rewrite Nat.add_0_r in Hok.
    by rewrite Hok.
  - rewrite wait_loop_step by lia. rewrite (Hfail attempt) by lia.
    rewrite (IH (count + 1)%Z (S attempt)).
    + reflexivity.
    + intros n Hn. apply Hfail. lia.
    + by replace (S attempt + j) with (attempt + S j) by lia.
    + lia.
Qed.

Lemma total_sleep_app (t1 t2 : list event) :
  total_sleep (t1 ++ t2) = (total_sleep t1 + total_sleep t2)%Z.
Proof.
  unfold total_sleep. induction t1 as [|e t1 IH]; [done|].
  simpl. rewrite IH. destruct e; lia.
Qed.

Lemma attempts_app (t1 t2 : list event) :
  attempts (t1 ++ t2) = attempts t1 + attempts t2.
Proof. unfold attempts. by rewrite List.filter_app, length_app. Qed.

Lemma failed_rounds_measure (host : string) (port : Z) (k : nat) :
  total_sleep (concat (replicate k (failed_round host port))) = (10 * Z.of_nat k)%Z
  ∧ attempts (concat (replicate k (failed_round host port))) = k.
Proof.
  induction k as [|k [IHs IHa]]; [done|].
  cbn [replicate concat]. rewrite total_sleep_app, attempts_app, IHs, IHa.
  split; [|done]. change (total_sleep (failed_round host port)) with 10%Z. lia.
Qed.

(** When the connect attempt number [k] (from 0, below 30) is the first to
    succeed, [wait_dremio] makes [k + 1] attempts and sleeps 10 after each
    of the [k] failures, [10 * k] in all, with no sleep after the success. *)
Theorem wait_dremio_first_success (connect : nat → bool) (host : string)
    (port : Z) (k : nat) :
  (∀ n, n < k → connect n = false) →
  connect k = true →
  k < 30 →
  wait_dremio connect host port
  = ((concat (replicate k (failed_round host port))
      ++ [LogInfo "wait dremio"; Connect host port])%list, Ok PyNone)
  ∧ attempts (wait_dremio connect host port).1 = k + 1
  ∧ total_sleep (wait_dremio connect host port).1 = (10 * Z.of_nat k)%Z.
Proof.
  intros Hfail Hok Hk. unfold wait_dremio.
  rewrite (wait_loop_first_success connect host port k 0 0);
    [| intros n Hn; apply Hfail; lia | done | lia].
  cbn [fst]. rewrite attempts_app, total_sleep_app.
  destruct (failed_rounds_measure host port k) as [-> ->].
  split; [done|]. split; [done|].
  change (total_sleep [LogInfo "wait dremio"; Connect host port]) with 0%Z. lia.
Qed.

Lemma wait_dremio_first_success_witness :
  attempts (wait_dremio (λ n, bool_decide (n = 3)) "dremio" 9047).1 = 4
  ∧ total_sleep (wait_dremio (λ n, bool_decide (n = 3)) "dremio" 9047).1 = 30%Z.
Proof.
  assert (Hfail : ∀ n, n < 3 → bool_decide (n = 3) = false).
  { intros n Hn. apply bool_decide_eq_false. lia. }
  destruct (wait_dremio_first_success (λ n, bool_decide (n = 3)) "dremio" 9047
              3 Hfail eq_refl (le_n_S _ _ (le_n_S _ _ (le_n_S _ _ (le_n_S _ _ (Nat.le_0_l _))))))
    as (_ & Ha & Hs).
  by split.
Defined.

Lemma wait_loop_bounded (connect : nat → bool) (host : string) (port : Z) :
  ∀ (k : nat) (count : Z) (attempt : nat),
    Z.to_nat (30 - count) = k →
    (attempts (wait_loop connect host port count attempt) ≤ k)%nat
    ∧ (0 <= total_sleep (wait_loop connect host port count attempt)
       <= 10 * Z.of_nat k)%Z.
Proof.
  induction k as [|k IH]; intros count attempt Hk.
  - rewrite wait_loop_done by lia. done.
  - rewrite wait_loop_step by lia.
    destruct (connect attempt).
    + unfold attempts, total_sleep. simpl. lia.
    + destruct (IH (count + 1)%Z (S attempt)) as [Ha Hs]; [lia|].
      unfold attempts, total_sleep in *. simpl. lia.
Qed.

(** Whatever the endpoint does, [wait_dremio] makes between 1 and 30
    connect attempts and sleeps at most 300 in all. *)
Theorem wait_dremio_is_bounded (connect : nat → bool) (host : string)
    (port : Z) :
  (1 ≤ attempts (wait_dremio connect host port).1 ≤ 30)%nat
  ∧ (0 <= total_sleep (wait_dremio connect host port).1 <= 300)%Z.
Proof.
  unfold wait_dremio. cbn [fst].
  destruct (wait_loop_bounded connect host port 30 0 0 eq_refl) as [Ha Hs].
  split; [split; [|done] | lia].
  rewrite wait_loop_step by lia. unfold attempts. simpl. lia.
Qed.

End WaitMoreFacts.


(** ** Theorems on the catalog client *)

Module CatalogFacts.
Import Py PyMore Catalog ResultFacts.

Lemma api_get_reply (s : service) (server endpoint : string)
    (headers body : pyval) (h : list event) (text : string) :
  respond s h (get_request s server endpoint headers body) = Ok text →
  api_get s server endpoint headers body h
  = lift (loads s text)
      (h ++ [Sent (get_request s server endpoint headers body)])%list.
Proof.
  intros Hreply. unfold api_get, io_bind, send.
  fold (get_request s server endpoint headers body). by rewrite Hreply.
Qed.

Lemma api_post_reply (s : service) (server endpoint : string)
    (body headers : pyval) (h : list event) (text : string) :
  respond s h (post_request s server endpoint body headers) = Ok text →
  api_post s server endpoint body headers h
  = (match text with
     | String _ _ => lift (loads s text)
     | EmptyString => ret PyNone
     end) (h ++ [Sent (post_request s server endpoint body headers)])%list.
Proof.
  intros Hreply. unfold api_post, io_bind, send.
  fold (post_request s server endpoint body headers). by rewrite Hreply.
Qed.

(** An empty response body is no data for [api_post], which returns [None]
    without decoding it, and an error for [api_get], which raises what
    [json.loads] raises on the empty text. *)
Theorem empty_body_post_and_get (s : service) (server endpoint : string)
    (body headers : pyval) (h : list event) (e : exn) :
  loads s EmptyString = Raise e →
  (respond s h (post_request s server endpoint body headers) = Ok EmptyString →
   api_post s server endpoint body headers h
   = (Returned PyNone,
      (h ++ [Sent (post_request s server endpoint body headers)])%list))
  ∧ (respond s h (get_request s server endpoint headers body) = Ok EmptyString →
     api_get s server endpoint headers body h
     = (Raised e,
        (h ++ [Sent (get_request s server endpoint headers body)])%list)).
Proof.
  intros Hloads. split; intros Hreply.
  - by rewrite (api_post_reply _ _ _ _ _ _ _ Hreply).
  - rewrite (api_get_reply _ _ _ _ _ _ _ Hreply). unfold lift.
    by rewrite Hloads.
Qed.

Lemma empty_body_post_and_get_witness :
  api_post (CatalogScenario.sample_service (Some 0%Z)) "http://dremio:9047" "catalog"
    PyNone CatalogScenario.sample_auth []
  = (Returned PyNone,
     [Sent (post_request (CatalogScenario.sample_service (Some 0%Z))
              "http://dremio:9047" "catalog" PyNone CatalogScenario.sample_auth)]).
Proof.
  exact (proj1 (empty_body_post_and_get (CatalogScenario.sample_service (Some 0%Z))
                  "http://dremio:9047" "catalog" PyNone
                  CatalogScenario.sample_auth []
                  (LibraryError "json.JSONDecodeError") eq_refl) eq_refl).
Defined.

Lemma slept_app (h1 h2 : list event) :
  slept (h1 ++ h2) = (slept h1 + slept h2)%Z.
Proof.
  unfold slept. induction h1 as [|e h1 IH]; [done|].
  simpl. rewrite IH. destruct e; lia.
Qed.

Lemma wait_for_job_finished (steps : nat) (s : service) (server : string)
    (auth : pyval) (job : string) (body response : pyval) (h : list event) :
  py_get response "jobState" PyNone = Ok (PyStr "COMPLETED") →
  wait_for_job steps s server auth job body response h = (Returned response, h).
Proof.
  intros Hstate. destruct steps; simpl; unfold io_bind, lift;
    by rewrite Hstate.
Qed.

Lemma wait_for_job_unfinished (steps : nat) (s : service) (server : string)
    (auth : pyval) (job : string) (body response state : pyval)
    (h : list event) :
  py_get response "jobState" PyNone = Ok state →
  is_str "COMPLETED" state = false →
  wait_for_job steps s server auth job body response h
  = match steps with
    | O => (Polling, h)
    | S steps' =>
        (response' <~ api_get s server job auth body ;;
         _ <~ sleep 10 ;;
         wait_for_job steps' s server auth job body response') h
    end.
Proof.
  intros Hstate Hrun. destruct steps; simpl; unfold io_bind at 1, lift;
    by rewrite Hstate, Hrun.
Qed.

(** One iteration of the loop, given the reply to its status request. *)
Lemma wait_for_job_round (steps : nat) (s : service) (server : string)
    (auth : pyval) (job : string) (body response state response' : pyval)
    (h : list event) (text : string) :
  py_get response "jobState" PyNone = Ok state →
  is_str "COMPLETED" state = false →
  respond s h (get_request s server job auth body) = Ok text →
  loads s text = Ok response' →
  wait_for_job (S steps) s server auth job body response h
  = wait_for_job steps s server auth job body response'
      (h ++ poll_round (get_request s server job auth body))%list.
Proof.
  intros Hstate Hrun Hreply Hloads.
  rewrite (wait_for_job_unfinished _ _ _ _ _ _ _ _ _ Hstate Hrun).
  unfold io_bind at 1. rewrite (api_get_reply _ _ _ _ _ _ _ Hreply).
  unfold lift. rewrite Hloads. unfold io_bind at 1, sleep.
  by rewrite <- app_assoc.
Qed.

(** The polling loop of [get_table_columns], when the job completes once
    [job_seconds] have been slept: a status request is followed by a sleep
    of 10 until a reply says [COMPLETED] (a sleep follows that reply too),
    so the loop returns that reply after [k + 1] rounds, where the round
    number [k] is the first to start with [job_seconds] slept. *)
Theorem polling_returns_when_completed (s : service) (server : string)
    (auth : pyval) (job : string) (body : pyval) (job_seconds : Z)
    (running_text done_text : string) (done : pyval) :
  (∀ h, respond s h (get_request s server job auth body)
        = Ok (if (slept h <? job_seconds)%Z then running_text else done_text)) →
  unfinished s running_text →
  finished s done_text done →
  ∀ (k steps : nat) (response state : pyval) (h : list event),
    py_get response "jobState" PyNone = Ok state →
    is_str "COMPLETED" state = false →
    (∀ i : nat, i < k → (slept h + 10 * Z.of_nat i < job_seconds)%Z) →
    (job_seconds <= slept h + 10 * Z.of_nat k)%Z →
    k < steps →
    wait_for_job steps s server auth job body response h
    = (Returned done,
       (h ++ concat (replicate (S k)
                       (poll_round (get_request s server job auth body))))%list).
Proof.
  intros Hsvc (running & rstate & Hrun_loads & Hrun_state & Hrun) [Hdone_loads Hdone].
  induction k as [|k IH]; intros steps response state h Hstate Hnot Hbefore Hat Hsteps.
  - destruct steps as [|steps]; [lia|].
    rewrite (wait_for_job_round _ _ _ _ _ _ _ _ done _ done_text Hstate Hnot).
    + rewrite (wait_for_job_finished _ _ _ _ _ _ _ _ Hdone).
      cbn [replicate concat]. by rewrite app_nil_r.
    + rewrite Hsvc. destruct (Z.ltb_spec (slept h) job_seconds); [lia | done].
    + done.
  - destruct steps as [|steps]; [lia|].
    rewrite (wait_for_job_round _ _ _ _ _ _ _ _ running _ running_text Hstate Hnot).
    + rewrite (IH steps running rstate _ Hrun_state Hrun).
      * cbn [replicate concat]. by rewrite <- !app_assoc.
      * intros i Hi. rewrite slept_app. change (slept (poll_round _)) with 10%Z.
        specialize (Hbefore (S i)). lia.
      * rewrite slept_app. change (slept (poll_round _)) with 10%Z. lia.
      * lia.
    + rewrite Hsvc. specialize (Hbefore 0).
      destruct (Z.ltb_spec (slept h) job_seconds); [done | lia].
    + done.
Qed.

Lemma polling_returns_when_completed_witness :
  wait_for_job 5 (CatalogScenario.sample_service (Some 25%Z)) "http://dremio:9047"
    CatalogScenario.sample_auth "job/j1" PyNone
    (PyDict [("jobState", PyStr "RUNNING")]) []
  = (Returned (PyDict [("jobState", PyStr "COMPLETED")]),
     concat (replicate 4 (poll_round CatalogScenario.status_request))).
Proof.
  refine (polling_returns_when_completed (CatalogScenario.sample_service (Some 25%Z))
            "http://dremio:9047" CatalogScenario.sample_auth "job/j1" PyNone 25
            "running" "done" (PyDict [("jobState", PyStr "COMPLETED")])
            (λ h, eq_refl) _ (conj eq_refl eq_refl)
            3 5 (PyDict [("jobState", PyStr "RUNNING")]) (PyStr "RUNNING") []
            eq_refl eq_refl _ _ _).
  - by exists (PyDict [("jobState", PyStr "RUNNING")]), (PyStr "RUNNING").
  - intros i Hi. change (slept []) with 0%Z. lia.
  - change (slept []) with 0%Z. lia.
  - lia.
Defined.

(** The polling has no bound of its own: while every status reply is
    unfinished, [get_table_columns] is still polling after any number of
    rounds, having slept 10 in each. *)
Theorem polling_never_gives_up (s : service) (server : string) (auth : pyval)
    (sql_path : string) (h0 : list event) (submitted : string)
    (reply : pyval) (job_id : string) :
  submitted ≠ EmptyString →
  respond s h0 (post_request s server "sql" (dataSQL sql_path) auth)
    = Ok submitted →
  loads s submitted = Ok reply →
  py_get reply "id" PyNone = Ok (PyStr job_id) →
  (∀ h, ∃ text,
      respond s h (get_request s server ("job/" +:+ job_id) auth (dataSQL sql_path))
        = Ok text
      ∧ unfinished s text) →
  ∀ steps, ∃ h,
    get_table_columns steps s server auth sql_path h0 = (Polling, h)
    ∧ slept h = (slept h0 + 10 * Z.of_nat steps)%Z.
Proof.
  intros Hnonempty Hsubmit Hloads Hid Hstatus steps.
  unfold get_table_columns. unfold io_bind at 1.
  rewrite (api_post_reply _ _ _ _ _ _ _ Hsubmit).
  destruct submitted as [|c rest]; [done|].
  unfold lift at 1. rewrite Hloads.
  unfold io_bind at 1, lift at 1. rewrite Hid.
  unfold io_bind at 1, lift at 1, str_plus. simpl.
  set (h1 := (h0 ++ [Sent _])%list).
  assert (Hh1 : slept h1 = slept h0) by (unfold h1; rewrite slept_app; simpl; lia).
  destruct (Hstatus h1) as (text & Hreply & response & state & Hl & Hs & Hrun).
  unfold io_bind at 1. rewrite (api_get_reply _ _ _ _ _ _ _ Hreply).
  unfold lift at 1. rewrite Hl.
  set (h2 := (h1 ++ [Sent _])%list).
  assert (Hh2 : slept h2 = slept h0) by (unfold h2; rewrite slept_app; simpl; lia).
  clearbody h2. clear Hreply Hl h1 Hh1.
  assert (Hloop : ∃ h,
             wait_for_job steps s server auth ("job/" +:+ job_id)
               (dataSQL sql_path) response h2 = (Polling, h)
             ∧ slept h = (slept h2 + 10 * Z.of_nat steps)%Z).
  { clear Hh2. revert response state h2 Hs Hrun.
    induction steps as [|steps IH]; intros response state h2 Hs Hrun.
    - rewrite (wait_for_job_unfinished _ _ _ _ _ _ _ _ _ Hs Hrun).
      exists h2. split; [done | lia].
    - destruct (Hstatus h2) as (text' & Hreply' & response' & state' & Hl' & Hs' & Hrun').
      rewrite (wait_for_job_round _ _ _ _ _ _ _ _ response' _ text' Hs Hrun Hreply' Hl').
      destruct (IH response' state'
                  (h2 ++ poll_round (get_request s server ("job/" +:+ job_id)
                                       auth (dataSQL sql_path)))%list
                  Hs' Hrun') as (h & Hh & Hslept).
      exists h. split; [done|]. rewrite Hslept, slept_app.
      change (slept (poll_round _)) with 10%Z. lia. }
  destruct Hloop as (h & Hh & Hslept).
  exists h. unfold io_bind at 1. rewrite Hh. split; [done | lia].
Qed.

Lemma polling_never_gives_up_witness :
  ∃ h,
    get_table_columns 7 (CatalogScenario.sample_service None)
      "http://dremio:9047" CatalogScenario.sample_auth "t" []
    = (Polling, h)
    ∧ slept h = 70%Z.
Proof.
  refine (polling_never_gives_up (CatalogScenario.sample_service None)
            "http://dremio:9047" CatalogScenario.sample_auth "t" []
            "submitted" (PyDict [("id", PyStr "j1")]) "j1"
            _ eq_refl eq_refl eq_refl _ 7).
  - done.
  - intros h. exists "running". split; [done|].
    by exists (PyDict [("jobState", PyStr "RUNNING")]), (PyStr "RUNNING").
Defined.

(** When the reply to the SQL submission is empty or has no [id],
    [get_table_columns] raises ([AttributeError] on the empty reply,
    [TypeError] on the missing id) after that single request: the job is
    never polled. *)
Theorem submission_without_id_raises (steps : nat) (s : service)
    (server : string) (auth : pyval) (sql_path : string) (h0 : list event) :
  let submit := post_request s server "sql" (dataSQL sql_path) auth in
  (respond s h0 submit = Ok EmptyString →
   get_table_columns steps s server auth sql_path h0
   = (Raised AttributeError, (h0 ++ [Sent submit])%list))
  ∧ (∀ text d,
       text ≠ EmptyString →
       respond s h0 submit = Ok text →
       loads s text = Ok (PyDict d) →
       dict_get "id" d = None →
       get_table_columns steps s server auth sql_path h0
       = (Raised TypeError, (h0 ++ [Sent submit])%list)).
Proof.
  intros submit. split.
  - intros Hreply. unfold get_table_columns. unfold io_bind at 1.
    by rewrite (api_post_reply _ _ _ _ _ _ _ Hreply).
  - intros text d Hne Hreply Hloads Hid.
    unfold get_table_columns. unfold io_bind at 1.
    rewrite (api_post_reply _ _ _ _ _ _ _ Hreply).
    destruct text as [|c rest]; [done|].
    unfold lift at 1. rewrite Hloads.
    unfold io_bind at 1, lift at 1, py_get. rewrite Hid. done.
Qed.

Lemma submission_without_id_raises_witness :
  get_table_columns 3 CatalogScenario.silent_service "http://dremio:9047"
    CatalogScenario.sample_auth "t" [Sent CatalogScenario.status_request]
  = (Raised AttributeError,
     [Sent CatalogScenario.status_request;
      Sent (post_request CatalogScenario.silent_service "http://dremio:9047"
              "sql" (dataSQL "t") CatalogScenario.sample_auth)]).
Proof.
  exact (proj1 (submission_without_id_raises 3 CatalogScenario.silent_service
                  "http://dremio:9047" CatalogScenario.sample_auth "t"
                  [Sent CatalogScenario.status_request]) eq_refl).
Defined.

Lemma concat_with_head (sep x : string) (l : list string) :
  l ≠ [] → String.concat sep (x :: l) = x +:+ sep +:+ String.concat sep l.
Proof. by destruct l. Qed.

(** What [promote_folder] returns and sends for a path that is a string:
    the list is the source name followed by the segments of the path, none
    of which holds a slash; joined by slashes it reads
    [source_name/path], the text that follows [dremio:/] in the dataset id;
    and the one request goes to the URL ending with the list joined by
    [%2F].  It returns only for a path that is a string. *)
Theorem promote_folder_path_list (s : service) (server : string)
    (auth path : pyval) (source_name : string) (h h' : list event)
    (path_list : list string) :
  promote_folder s server auth path source_name h = (Returned path_list, h') →
  ∃ p,
    path = PyStr p
    ∧ path_list = source_name :: str_split "/" p
    ∧ String.concat "/" path_list = source_name +:+ "/" +:+ p
    ∧ Forall (λ segment, str_contains "/" segment = false) (from_1 path_list)
    ∧ h' = (h ++ [Sent (post_request s server
                          ("catalog/dremio%3A%2F"
                             +:+ String.concat "%2F" path_list)
                          (dataPromote source_name p path_list) auth)])%list.
Proof.
  intros H. unfold promote_folder in H.
  destruct path as [| | |p| |]; try done.
  exists p. rewrite StringFacts.split_from_char in H.
  pose proof (StringFacts.str_split_not_nil "/" p) as Hne.
  assert (Hurl : promote_url source_name (source_name :: str_split "/" p)
                 = String.concat "%2F" (source_name :: str_split "/" p)).
  { unfold promote_url, from_1. cbn [drop].
    rewrite concat_with_head by done. by rewrite PolicyFacts.append_assoc. }
  rewrite Hurl in H. unfold io_bind in H.
  destruct (api_post s server _ _ auth h) as [[v|e|] h1] eqn:Hpost; try done.
  injection H as <- <-.
  split; [done|]. split; [done|]. split; [|split].
  - rewrite concat_with_head by done. by rewrite StringFacts.join_split.
  - apply StringFacts.split_pieces_clean.
  - unfold api_post, io_bind, send in Hpost.
    fold (post_request s server
            ("catalog/dremio%3A%2F"
               +:+ String.concat "%2F" (source_name :: str_split "/" p))
            (dataPromote source_name p (source_name :: str_split "/" p)) auth)
      in Hpost.
    destruct (respond s h _) as [text|e] eqn:Hreply; [|done].
    destruct text as [|c rest]; [by injection Hpost as _ <-|].
    unfold lift in Hpost. destruct (loads s (String c rest)); by injection Hpost as _ <-.
Qed.

Lemma promote_folder_path_list_witness :
  ∃ p, PyStr "bucket/table" = PyStr p
       ∧ String.concat "/" ["sample-iceberg"; "bucket"; "table"]
         = "sample-iceberg" +:+ "/" +:+ p.
Proof.
  pose (s := CatalogScenario.sample_service None).
  destruct (promote_folder s "http://dremio:9047" CatalogScenario.sample_auth
              (PyStr "bucket/table") "sample-iceberg" [])
    as [out h'] eqn:Hrun.
  assert (Hout : out = Returned ["sample-iceberg"; "bucket"; "table"]).
  { vm_compute in Hrun. by injection Hrun as <- _. }
  subst out.
  destruct (promote_folder_path_list s _ _ _ _ _ _ _ Hrun)
    as (p & Hp & _ & Hjoin & _).
  by exists p.
Defined.

Lemma names_of_dicts (schema : list (list (string * pyval))) :
  names_of (map PyDict schema)
  = Ok (map (λ d, from_option id PyNone (dict_get "name" d)) schema).
Proof.
  induction schema as [|d ds IH]; [done|]. cbn [map names_of].
  rewrite IH. reflexivity.
Qed.

(** When the job is already [COMPLETED] at the first status check,
    [get_table_columns] returns after three requests (the submission, one
    status check, the results) and no sleep; the column names are the
    [name] fields of the schema in its order, [None] where an element has
    no name. *)
Theorem columns_of_completed_job (steps : nat) (s : service) (server : string)
    (auth : pyval) (sql_path : string) (h0 : list event)
    (submitted status_text results_text job_id : string)
    (reply status results : pyval) (schema : list (list (string * pyval))) :
  let body := dataSQL sql_path in
  let submit := post_request s server "sql" body auth in
  let check := get_request s server ("job/" +:+ job_id) auth body in
  let fetch := get_request s server (("job/" +:+ job_id) +:+ "/results") auth body in
  submitted ≠ EmptyString →
  respond s h0 submit = Ok submitted →
  loads s submitted = Ok reply →
  py_get reply "id" PyNone = Ok (PyStr job_id) →
  respond s (h0 ++ [Sent submit])%list check = Ok status_text →
  finished s status_text status →
  respond s ((h0 ++ [Sent submit]) ++ [Sent check])%list fetch = Ok results_text →
  loads s results_text = Ok results →
  py_get results "schema" PyNone = Ok (PyList (map PyDict schema)) →
  get_table_columns steps s server auth sql_path h0
  = (Returned (map (λ d, from_option id PyNone (dict_get "name" d)) schema),
     (((h0 ++ [Sent submit]) ++ [Sent check]) ++ [Sent fetch])%list).
Proof.
  intros body submit check fetch Hne Hsubmit Hreply Hid Hcheck [Hstatus Hdone]
    Hfetch Hresults Hschema.
  unfold get_table_columns. fold body. unfold io_bind at 1.
  rewrite (api_post_reply _ _ _ _ _ _ _ Hsubmit). fold submit.
  destruct submitted as [|c rest]; [done|].
  unfold lift at 1. rewrite Hreply.
  unfold io_bind at 1, lift at 1. rewrite Hid.
  unfold io_bind at 1, lift at 1, str_plus. simpl bind. cbv iota.
  unfold io_bind at 1. rewrite (api_get_reply _ _ _ _ _ _ _ Hcheck). fold check.
  unfold lift at 1. rewrite Hstatus.
  unfold io_bind at 1. rewrite (wait_for_job_finished _ _ _ _ _ _ _ _ Hdone).
  unfold io_bind at 1. rewrite (api_get_reply _ _ _ _ _ _ _ Hfetch). fold fetch.
  unfold lift at 1. rewrite Hresults.
  unfold io_bind at 1, lift at 1. rewrite Hschema.
  unfold io_bind at 1, lift at 1. cbn [py_iter].
  unfold lift. by rewrite names_of_dicts.
Qed.

Lemma columns_of_completed_job_witness :
  get_table_columns 0 (CatalogScenario.sample_service (Some 0%Z))
    "http://dremio:9047" CatalogScenario.sample_auth "t" []
  = (Returned [PyStr "id"; PyStr "email"],
     [Sent (post_request (CatalogScenario.sample_service (Some 0%Z))
              "http://dremio:9047" "sql" (dataSQL "t") CatalogScenario.sample_auth);
      Sent (get_request (CatalogScenario.sample_service (Some 0%Z))
              "http://dremio:9047" "job/j1" CatalogScenario.sample_auth
              (dataSQL "t"));
      Sent (get_request (CatalogScenario.sample_service (Some 0%Z))
              "http://dremio:9047" "job/j1/results" CatalogScenario.sample_auth
              (dataSQL "t"))]).
Proof.
  refine (columns_of_completed_job 0 (CatalogScenario.sample_service (Some 0%Z))
            "http://dremio:9047" CatalogScenario.sample_auth "t" []
            "submitted" "done" "results" "j1"
            (PyDict [("id", PyStr "j1")])
            (PyDict [("jobState", PyStr "COMPLETED")])
            (PyDict [("schema", PyList [PyDict [("name", PyStr "id")];
                                        PyDict [("name", PyStr "email")]])])
            [[("name", PyStr "id")]; [("name", PyStr "email")]]
            _ eq_refl eq_refl eq_refl eq_refl (conj eq_refl eq_refl)
            eq_refl eq_refl eq_refl).
  done.
Defined.

Section Extends.
Context {P : event → Prop}.

Lemma extends_ret {A : Type} (a : A) : extends_with P (ret a).
Proof. intros h. exists []. by rewrite app_nil_r. Qed.

Lemma extends_lift {A : Type} (m : result A) : extends_with P (lift m).
Proof. intros h. exists []. rewrite app_nil_r. by destruct m. Qed.

Lemma extends_raise {A : Type} (e : exn) : extends_with P (@raise A e).
Proof. intros h. exists []. by rewrite app_nil_r. Qed.

Lemma extends_still_polling {A : Type} : extends_with P (@still_polling A).
Proof. intros h. exists []. by rewrite app_nil_r. Qed.

Lemma extends_send (s : service) (r : request) :
  P (Sent r) → extends_with P (send s r).
Proof.
  intros Hr h. exists [Sent r]. unfold send.
  destruct (respond s h r); by repeat constructor.
Qed.

Lemma extends_sleep (n : Z) : P (Slept n) → extends_with P (sleep n).
Proof. intros Hn h. exists [Slept n]. by repeat constructor. Qed.

Lemma extends_bind {A B : Type} (m : io A) (f : A → io B) :
  extends_with P m → (∀ a, extends_with P (f a)) →
  extends_with P (io_bind m f).
Proof.
  intros Hm Hf h. unfold io_bind.
  destruct (Hm h) as (ext1 & Hext1 & HP1).
  destruct (m h) as [[a|e|] h1]; simpl in Hext1; subst h1.
  - destruct (Hf a (h ++ ext1)%list) as (ext2 & Hext2 & HP2).
    exists (ext1 ++ ext2)%list. rewrite Hext2, app_assoc.
    split; [done | by apply Forall_app].
  - by exists ext1.
  - by exists ext1.
Qed.
End Extends.

Ltac extends_step :=
  lazymatch goal with
  | |- extends_with _ (io_bind _ _) => apply extends_bind; [|intros ?]
  | |- extends_with _ (ret _) => apply extends_ret
  | |- extends_with _ (lift _) => apply extends_lift
  | |- extends_with _ (raise _) => apply extends_raise
  | |- extends_with _ still_polling => apply extends_still_polling
  | |- extends_with _ (send _ _) => apply extends_send; reflexivity
  | |- extends_with _ (sleep _) => apply extends_sleep; exact I
  | |- extends_with _ (if ?b then _ else _) => destruct b
  | |- extends_with _ (match ?x with _ => _ end) => destruct x
  end.

Lemma api_get_carries (s : service) (server endpoint : string)
    (auth body : pyval) :
  extends_with (carries auth) (api_get s server endpoint auth body).
Proof. unfold api_get. repeat extends_step. Qed.

Lemma api_post_carries (s : service) (server endpoint : string)
    (body auth : pyval) :
  extends_with (carries auth) (api_post s server endpoint body auth).
Proof. unfold api_post. repeat extends_step. Qed.

Lemma wait_for_job_carries (steps : nat) (s : service) (server : string)
    (auth : pyval) (job : string) (body response : pyval) :
  extends_with (carries auth)
    (wait_for_job steps s server auth job body response).
Proof.
  revert response. induction steps as [|steps IH]; intros response;
    cbn [wait_for_job]; repeat extends_step.
  - apply api_get_carries.
  - apply IH.
Qed.

Lemma get_table_columns_carries (steps : nat) (s : service) (server : string)
    (auth : pyval) (sql_path : string) :
  extends_with (carries auth) (get_table_columns steps s server auth sql_path).
Proof.
  unfold get_table_columns.
  repeat first [ extends_step | apply api_get_carries | apply api_post_carries
               | apply wait_for_job_carries ].
Qed.

Lemma promote_folder_carries (s : service) (server : string)
    (auth path : pyval) (source_name : string) :
  extends_with (carries auth) (promote_folder s server auth path source_name).
Proof.
  unfold promote_folder.
  repeat first [ extends_step | apply api_post_carries ].
Qed.

End CatalogFacts.


(** ** Theorems on the script *)

Module MainFacts.
Import Py PyMore World Conf Policy PolicyDyn Catalog Main ResultFacts.

Lemma split_scheme (scheme rest : string) :
  str_contains ":" scheme = false →
  split_from "://" 0 (scheme +:+ "://" +:+ rest)
  = scheme :: split_from "://" 0 rest.
Proof.
  induction scheme as [|c scheme IH].
  - intros _.
    change (EmptyString +:+ "://" +:+ rest)
      with (String ":" (String "/" (String "/" rest))).
    cbn [split_from].
    rewrite !StringFacts.prefix_cons, StringFacts.prefix_empty. reflexivity.
  - rewrite StringFacts.str_contains_char. intros [Hc Hs]%orb_false_elim.
    change (String c scheme +:+ "://" +:+ rest)
      with (String c (scheme +:+ "://" +:+ rest)).
    cbn [split_from]. rewrite StringFacts.prefix_cons.
    rewrite Ascii.eqb_sym, Hc. cbn [andb]. by rewrite (IH Hs).
Qed.

Lemma contains_after (sep a b : string) :
  str_contains sep b = true → str_contains sep (a +:+ b) = true.
Proof.
  intros Hb. induction a as [|c a IH]; [done|].
  change (String c a +:+ b) with (String c (a +:+ b)).
  change (str_contains sep (String c (a +:+ b)))
    with (String.prefix sep (String c (a +:+ b)) || str_contains sep (a +:+ b)).
  rewrite IH. apply orb_true_r.
Qed.

(** The endpoint of the storage, as the script hands it to the catalog:
    an endpoint without [://] is kept as it is, and of
    [scheme://rest] only [rest] is kept (the scheme has no colon, the rest
    no further [://]). *)
Theorem endpoint_without_scheme (endpoint scheme rest : string) :
  (str_contains "://" endpoint = false →
   strip_scheme (PyStr endpoint) = Ok (PyStr endpoint))
  ∧ (str_contains ":" scheme = false →
     str_contains "://" rest = false →
     strip_scheme (PyStr (scheme +:+ "://" +:+ rest)) = Ok (PyStr rest)).
Proof.
  split.
  - intros Hno. unfold strip_scheme. simpl. by rewrite Hno.
  - intros Hscheme Hrest. unfold strip_scheme, py_contains.
    rewrite contains_after.
    + simpl. rewrite (split_scheme scheme rest Hscheme).
      rewrite (StringFacts.split_from_no_occurrence "://" rest Hrest).
      by rewrite StringFacts.seq_index_second.
    + change ("://" +:+ rest) with (String ":" (String "/" (String "/" rest))).
      cbn [str_contains].
      by rewrite !StringFacts.prefix_cons, StringFacts.prefix_empty.
Qed.

Lemma endpoint_without_scheme_witness :
  strip_scheme (PyStr "s3:9000") = Ok (PyStr "s3:9000")
  ∧ strip_scheme (PyStr "http://s3:9000") = Ok (PyStr "s3:9000").
Proof.
  split.
  - exact (proj1 (endpoint_without_scheme "s3:9000" "" "") eq_refl).
  - exact (proj2 (endpoint_without_scheme "" "http" "s3:9000") eq_refl eq_refl).
Defined.

Lemma provision_as_carries (w : world) (s : service) (steps : nat)
    (auth : pyval) :
  extends_with (carries auth) (provision_as w s steps auth).
Proof.
  unfold provision_as, create_s3_source, create_VDS, create_new_user.
  repeat first
    [ CatalogFacts.extends_step
    | apply CatalogFacts.api_get_carries
    | apply CatalogFacts.api_post_carries
    | apply CatalogFacts.get_table_columns_carries
    | apply CatalogFacts.promote_folder_carries ].
Qed.

Lemma requests_of_app (h1 h2 : list event) :
  requests_of (h1 ++ h2) = (requests_of h1 ++ requests_of h2)%list.
Proof. unfold requests_of. apply omap_app. Qed.

Lemma requests_carry (auth : pyval) (ext : list event) :
  Forall (carries auth) ext → Forall (λ r, headers r = auth) (requests_of ext).
Proof.
  induction 1 as [|e ext He Hext IH]; [constructor|].
  destruct e as [r|n]; simpl; [by constructor | done].
Qed.

(** What a returning [register_admin_user] and [login] have done: one
    request each, and the headers returned are built from the token of the
    reply to the login request. *)
Lemma bootstrap_and_login (s : service) (v auth : pyval) (h1 h2 : list event) :
  register_admin_user s dremio_server [] = (Returned v, h1) →
  login s dremio_server username password json_headers h1 = (Returned auth, h2) →
  h1 = [Sent (bootstrap_request s dremio_server)]
  ∧ h2 = [Sent (bootstrap_request s dremio_server);
          Sent (login_request s dremio_server username password json_headers)]
  ∧ ∃ text data token,
      respond s [Sent (bootstrap_request s dremio_server)]
        (login_request s dremio_server username password json_headers)
      = Ok text
      ∧ loads s text = Ok data
      ∧ py_getitem data "token" = Ok token
      ∧ auth = PyDict [("Content-Type", PyStr "application/json");
                       ("Authorization",
                         PyStr ("_dremio" +:+ py_format s token))].
Proof.
  intros Hreg Hlogin.
  unfold register_admin_user, io_bind, send, ret in Hreg. cbn [app] in Hreg.
  destruct (respond s [] _); [|done]. injection Hreg as _ <-.
  split; [done|].
  unfold login, io_bind, send, lift, ret in Hlogin. cbn [app] in Hlogin.
  destruct (respond s _ _) as [text|] eqn:Htext; [|done].
  destruct (loads s text) as [data|] eqn:Hdata; [|done].
  destruct (py_getitem data "token") as [token|] eqn:Htoken; [|done].
  injection Hlogin as <- <-. split; [done|].
  by exists text, data, token.
Qed.

(** Once logged in, the script sends every request to the catalog under
    the headers that [login] returned: when [register_admin_user] and
    [login] return, those two calls have sent one request each, the
    headers [login] returns hold [_dremio] followed by the token of the
    reply to the login request as [Authorization], and whatever the
    script does next, every later request to the catalog carries exactly
    those headers.  (The requests to Vault are no part of this history.) *)
Theorem requests_carry_the_login_token (w : world) (s : service) (steps : nat)
    (v auth : pyval) (h1 h2 : list event) :
  register_admin_user s dremio_server [] = (Returned v, h1) →
  login s dremio_server username password json_headers h1 = (Returned auth, h2) →
  h2 = [Sent (bootstrap_request s dremio_server);
        Sent (login_request s dremio_server username password json_headers)]
  ∧ (∃ text data token,
        respond s [Sent (bootstrap_request s dremio_server)]
          (login_request s dremio_server username password json_headers)
        = Ok text
        ∧ loads s text = Ok data
        ∧ py_getitem data "token" = Ok token
        ∧ auth = PyDict [("Content-Type", PyStr "application/json");
                         ("Authorization",
                           PyStr ("_dremio" +:+ py_format s token))])
  ∧ ∃ later,
      (provision w s steps []).2 = (h2 ++ later)%list
      ∧ Forall (carries auth) later
      ∧ Forall (λ r, headers r = auth) (requests_of later).
Proof.
  intros Hreg Hlogin.
  destruct (bootstrap_and_login s v auth h1 h2 Hreg Hlogin) as (_ & Hh2 & Hauth).
  split; [done|]. split; [done|].
  destruct (provision_as_carries w s steps auth h2) as (later & Hlater & Hcarry).
  exists later. split; [|split; [done | by apply requests_carry]].
  unfold provision. unfold io_bind at 1. rewrite Hreg.
  unfold io_bind at 1. by rewrite Hlogin.
Qed.

Lemma requests_carry_the_login_token_witness :
  ∃ later,
    (provision (Scenario.sample_world Scenario.login_ok Scenario.two_datasets)
       (CatalogScenario.sample_service (Some 0%Z)) 0 []).2
    = ([Sent (bootstrap_request (CatalogScenario.sample_service (Some 0%Z))
                dremio_server);
        Sent (login_request (CatalogScenario.sample_service (Some 0%Z))
                dremio_server username password json_headers)] ++ later)%list
    ∧ Forall (carries CatalogScenario.sample_auth) later
    ∧ Forall (λ r, headers r = CatalogScenario.sample_auth) (requests_of later).
Proof.
  exact (proj2 (proj2
    (requests_carry_the_login_token
       (Scenario.sample_world Scenario.login_ok Scenario.two_datasets)
       (CatalogScenario.sample_service (Some 0%Z)) 0
       PyNone CatalogScenario.sample_auth
       [Sent (bootstrap_request (CatalogScenario.sample_service (Some 0%Z))
                dremio_server)]
       [Sent (bootstrap_request (CatalogScenario.sample_service (Some 0%Z))
                dremio_server);
        Sent (login_request (CatalogScenario.sample_service (Some 0%Z))
                dremio_server username password json_headers)]
       eq_refl eq_refl))).
Defined.

(** The admin user is bootstrapped in the catalog and logged in before the
    configuration is read: when the loading of the configuration raises
    (missing Vault credentials, a malformed entry), the provisioning ends
    with that error, and its traffic with the catalog is the bootstrap
    request and the login request and nothing else, so no source, dataset,
    space or user has been created there.  (What the loading sent to Vault
    before it raised, and what [wait_dremio] slept, is no part of this
    history.) *)
Theorem config_failure_stops_provisioning (w : world) (s : service)
    (steps : nat) (v auth : pyval) (h1 h2 : list event) (e : exn) :
  register_admin_user s dremio_server [] = (Returned v, h1) →
  login s dremio_server username password json_headers h1 = (Returned auth, h2) →
  get_details_from_conf w ∅ = Raise e →
  provision w s steps []
  = (Raised e,
     [Sent (bootstrap_request s dremio_server);
      Sent (login_request s dremio_server username password json_headers)]).
Proof.
  intros Hreg Hlogin Hconf.
  destruct (bootstrap_and_login s v auth h1 h2 Hreg Hlogin) as (_ & <- & _).
  unfold provision. unfold io_bind at 1. rewrite Hreg.
  unfold io_bind at 1. rewrite Hlogin.
  unfold provision_as. unfold io_bind at 1, lift. by rewrite Hconf.
Qed.

Lemma config_failure_stops_provisioning_witness :
  provision (Scenario.sample_world Scenario.login_denied Scenario.two_datasets)
    (CatalogScenario.sample_service None) 3 []
  = (Raised Vault.missing_credentials,
     [Sent (bootstrap_request (CatalogScenario.sample_service None) dremio_server);
      Sent (login_request (CatalogScenario.sample_service None) dremio_server
              username password json_headers)]).
Proof.
  exact (config_failure_stops_provisioning
           (Scenario.sample_world Scenario.login_denied Scenario.two_datasets)
           (CatalogScenario.sample_service None) 3
           PyNone CatalogScenario.sample_auth
           [Sent (bootstrap_request (CatalogScenario.sample_service None)
                    dremio_server)]
           [Sent (bootstrap_request (CatalogScenario.sample_service None)
                    dremio_server);
            Sent (login_request (CatalogScenario.sample_service None)
                    dremio_server username password json_headers)]
           Vault.missing_credentials eq_refl eq_refl eq_refl).
Defined.

(** A list of segments in double quotes, joined by dots. *)
Lemma quoted_path (path_list : list string) :
  path_list ≠ [] →
  dquote +:+ String.concat quote_dot_quote path_list +:+ dquote
  = String.concat "." (map Scenario.quoted path_list).
Proof.
  induction path_list as [|x l IH]; [done|]. intros _.
  destruct l as [|y l].
  - reflexivity.
  - rewrite (CatalogFacts.concat_with_head quote_dot_quote x (y :: l)) by done.
    cbn [map].
    rewrite (CatalogFacts.concat_with_head "." (Scenario.quoted x)
               (Scenario.quoted y :: map Scenario.quoted l)) by done.
    change (Scenario.quoted y :: map Scenario.quoted l)
      with (map Scenario.quoted (y :: l)).
    rewrite <- IH by done. unfold Scenario.quoted, quote_dot_quote.
    by rewrite !PolicyFacts.append_assoc.
Qed.

(** The SQL the script builds over a promoted folder: the path list that
    [promote_folder] returns gives an [sql_path] whose closing quote
    balances the quote that [get_policy_query] opens, so the policy query
    reads [select <columns> from] followed by the quoted segments joined by
    dots; the statement of [get_table_columns] reads [SELECT * FROM], the
    same quoted path, and [LIMIT 0] with no space in between. *)
Theorem sql_over_promoted_folder (protectedCols allCols : list string)
    (source path : string) (first : string) (others : list string) :
  let path_list := source :: str_split "/" path in
  request_cols protectedCols allCols = first :: others →
  get_policy_query protectedCols (sql_path_of source path_list) allCols
  = "select " +:+ String.concat ", " (first :: others) +:+ " from "
    +:+ String.concat "." (map Scenario.quoted path_list)
  ∧ dataSQL (sql_path_of source path_list)
    = PyDict [("sql", PyStr ("SELECT * FROM "
                             +:+ String.concat "." (map Scenario.quoted path_list)
                             +:+ "LIMIT 0"))].
Proof.
  intros path_list Hcols.
  pose proof (StringFacts.str_split_not_nil "/" path) as Hne.
  assert (Hpath : dquote +:+ sql_path_of source path_list
                  = String.concat "." (map Scenario.quoted path_list)).
  { rewrite <- quoted_path by done. unfold sql_path_of, path_list, from_1.
    cbn [drop]. rewrite CatalogFacts.concat_with_head by done.
    by rewrite !PolicyFacts.append_assoc. }
  split.
  - rewrite PolicyFacts.get_policy_query_render, Hcols.
    unfold render_query. by rewrite Hpath.
  - unfold dataSQL. by rewrite Hpath.
Qed.

Lemma sql_over_promoted_folder_witness :
  get_policy_query ["ssn"] (sql_path_of "src" ["src"; "bucket"; "t"]) ["id"; "ssn"]
  = "select id from " +:+ Scenario.quoted "src" +:+ "."
    +:+ Scenario.quoted "bucket" +:+ "." +:+ Scenario.quoted "t".
Proof.
  exact (proj1 (sql_over_promoted_folder ["ssn"] ["id"; "ssn"] "src" "bucket/t"
                  "id" [] eq_refl)).
Defined.

(** A schema element without [name] gives the column name [None], and with
    it the derivation of the policy query raises [TypeError], whatever
    names the policy protects. *)
Theorem nameless_column_breaks_query (schema : list (list (string * pyval)))
    (protectedCols : list string) (path : string) :
  (∃ d, d ∈ schema ∧ dict_get "name" d = None) →
  ∃ col_names,
    names_of (map PyDict schema) = Ok col_names
    ∧ PyNone ∈ col_names
    ∧ get_policy_query_dyn (PyList (map PyStr protectedCols)) path col_names
      = Raise TypeError.
Proof.
  intros (d & Hd & Hname).
  exists (map (λ d, from_option id PyNone (dict_get "name" d)) schema).
  split; [apply CatalogFacts.names_of_dicts|].
  assert (Hin : PyNone ∈ map (λ d, from_option id PyNone (dict_get "name" d)) schema).
  { apply list_elem_of_fmap. exists d. by rewrite Hname. }
  split; [done|].
  rewrite PolicyMoreFacts.get_policy_query_dyn_list.
  replace (forallb _ _) with false; [done|]. symmetry.
  apply not_true_is_false. intros Hall.
  rewrite forallb_forall in Hall.
  specialize (Hall PyNone). simpl in Hall.
  assert (false = true); [|done]. apply Hall.
  apply filter_In. split; [by apply list_elem_of_In|].
  clear. by induction protectedCols.
Qed.

Lemma nameless_column_breaks_query_witness :
  ∃ col_names,
    names_of [PyDict [("name", PyStr "id")]; PyDict [("type", PyStr "INT")]]
    = Ok col_names
    ∧ PyNone ∈ col_names
    ∧ get_policy_query_dyn (PyList [PyStr "ssn"]) "t" col_names = Raise TypeError.
Proof.
  refine (nameless_column_breaks_query
            [[("name", PyStr "id")]; [("type", PyStr "INT")]] ["ssn"] "t" _).
  exists [("type", PyStr "INT")]. split; [|done].
  apply elem_of_cons. right. apply elem_of_cons. by left.
Defined.

End MainFacts.
